(** * Senior Care API: role-scoped querysets and status-transition actions

    A shallow embedding of the Django REST views of [senior_care/views.py],
    the serializers of [senior_care/serializers.py] and the columns of
    [senior_care/models.py] that those views read or write.

    Conventions of the embedding:
    - a database table is a finite map from primary keys to rows;
    - a [QuerySet] is the finite map of the rows it selects;
    - a foreign key column holds the primary key of the row it refers to
      ([option] when the column is nullable);
    - a [DateTimeField] is a number of microseconds (the resolution of
      Python's [datetime]), a [DurationField] a difference of two of them;
    - every call of [timezone.now()] is an explicit argument of the view,
      one argument per call;
    - a Python number that is not an integer is an exact rational;
    - a [string] is a Python [str] whose code points are below 256, one
      character per code point;
    - a view returns its [Response] together with the tables it wrote; when
      an exception escapes it, the answer is a 500 and the tables hold what
      was written before the exception;
    - the primary key of a detail route is looked up in the view's queryset
      ([get_object()]), without query-string filters;
    - columns that none of the embedded views reads or assigns are left out
      of the row records; of the [auto_now] columns, which every [save()]
      stamps, the embedding keeps [Appointment.updated_at]. *)

From stdpp Require Import gmap strings list fin_maps pretty.
From Stdlib Require Import ZArith QArith Lia.

Open Scope Z_scope.
Open Scope string_scope.

(** ** The object-relational layer *)

Abbreviation Table Row := (gmap nat Row).

Module ORM.
(** The three outcomes of [Model.objects.get(...)]. *)
Inductive GetResult (Row : Type) :=
| Found (pk : nat) (obj : Row)
| DoesNotExist
| MultipleObjectsReturned.
Arguments Found {Row} pk obj.
Arguments DoesNotExist {Row}.
Arguments MultipleObjectsReturned {Row}.

Section Manager.
Context {Row : Type}.

(** [qs.filter(...)], the condition given as a test on a row *)
Definition filter_by (cond : Row → bool) (qs : Table Row) : Table Row :=
  filter (λ kv, cond kv.2 = true) qs.

(** [qs.exists()] *)
Definition exists_ (qs : Table Row) : bool :=
  negb (Nat.eqb (size qs) 0).

(** [get_object()]: the row of the view's queryset with the primary key
    of the URL, or nothing (which the view turns into a 404). *)
Definition get_object (pk : nat) (qs : Table Row) : option Row := qs !! pk.

(** [Model.objects.get(...)] *)
Definition get (cond : Row → bool) (tbl : Table Row) : GetResult Row :=
  match map_to_list (filter_by cond tbl) with
  | [] => DoesNotExist
  | [(pk, obj)] => Found pk obj
  | _ :: _ :: _ => MultipleObjectsReturned
  end.

(** [obj.save()] of an object that was read from the table *)
Definition save (pk : nat) (obj : Row) (tbl : Table Row) : Table Row :=
  <[pk := obj]> tbl.

(** [Model.objects.create(...)]: the row is stored under a primary key
    that the table does not use yet. *)
Definition create (obj : Row) (tbl : Table Row) : Table Row :=
  <[fresh (dom tbl) := obj]> tbl.

(** [qs.update(...)]: every row selected by [qs] is rewritten by
    [assign]; the other rows of the table stay as they are. *)
Definition update (assign : Row → Row) (qs tbl : Table Row) : Table Row :=
  (assign <$> qs) ∪ tbl.

(** [qs.count()] *)
Definition count (qs : Table Row) : nat := size qs.

(** [qs.filter(pk__in=selected)]: the rows that an administrator ticked
    in a change list. *)
Definition filter_pk (selected : gset nat) (qs : Table Row) : Table Row :=
  filter (λ kv, kv.1 ∈ selected) qs.

(** [obj.delete()] of an object that was read from the table *)
Definition delete (pk : nat) (tbl : Table Row) : Table Row :=
  base.delete pk tbl.
End Manager.

(** [IntegerField.get_prep_value]: what [save()] writes into an integer
    column is [int(value)], Python's truncation towards zero. *)
Definition IntegerField_get_prep_value (value : Q) : Z :=
  Z.quot (Qnum value) (Z.pos (Qden value)).

(** A [PositiveIntegerField] has the check constraint [>= 0]: [save()]
    raises [IntegrityError] on a negative value. *)
Definition PositiveIntegerField_violated (value : Z) : bool :=
  (value <? 0)%Z.

(** [DecimalField(max_digits=5, decimal_places=2)]: [save()] rounds the
    number to five significant digits and then to two decimals, and raises
    when the result needs more than five digits, that is when the
    magnitude of the number is 999.995 or more. *)
Definition DecimalField_5_2_overflows (value : Q) : bool :=
  Qle_bool (999995 # 1000)%Q value || Qle_bool value (- (999995 # 1000))%Q.
End ORM.

(** ** Python strings *)

(** [str.isspace] of a character below 256: the whitespace of ASCII (tab
    to carriage return, the four separators 28 to 31, the space), the next
    line character 133 and the no-break space 160. *)
Definition isspace (c : Ascii.ascii) : bool :=
  let n := Ascii.nat_of_ascii c in
  ((9 <=? n) && (n <=? 13) || (28 <=? n) && (n <=? 32)
   || (n =? 133) || (n =? 160))%nat.

(** [str.lstrip()], [str.rstrip()] and [str.strip()] *)
Fixpoint lstrip (s : string) : string :=
  match s with
  | String c rest => if isspace c then lstrip rest else s
  | EmptyString => EmptyString
  end.

Definition rstrip (s : string) : string :=
  String.rev (lstrip (String.rev s)).

Definition strip (s : string) : string := rstrip (lstrip s).

(** [timedelta.total_seconds()] of a duration counted in microseconds *)
Definition total_seconds (duration : Z) : Q :=
  (inject_Z duration / inject_Z 1000000)%Q.

(** ** JSON bodies and responses *)

#[warnings="-register-all"]
Inductive JSON :=
| JNull
| JBool (b : bool)
| JInt (n : Z)
| JStr (s : string)
| JList (items : list JSON)
| JObj (members : list (string * JSON)).

(** [body[key]] of a JSON object *)
Definition json_get (key : string) (body : JSON) : option JSON :=
  match body with
  | JObj members =>
      snd <$> List.find (λ kv, String.eqb (fst kv) key) members
  | _ => None
  end.

Module Response.
Record t := mk {
  data : JSON;
  status : Z
}.
End Response.

Definition HTTP_200_OK : Z := 200.
Definition HTTP_201_CREATED : Z := 201.
Definition HTTP_400_BAD_REQUEST : Z := 400.
Definition HTTP_404_NOT_FOUND : Z := 404.
Definition HTTP_500_INTERNAL_SERVER_ERROR : Z := 500.

(** [Response({'message': ...})]: the status defaults to 200. *)
Definition message_response (message : string) : Response.t :=
  Response.mk (JObj [("message", JStr message)]) HTTP_200_OK.

(** [Response({'error': ...}, status=...)] *)
Definition error_response (error : string) (status : Z) : Response.t :=
  Response.mk (JObj [("error", JStr error)]) status.

(** What the framework answers when [get_object()] finds no row. *)
Definition not_found_response : Response.t :=
  Response.mk (JObj [("detail", JStr "Not found.")]) HTTP_404_NOT_FOUND.

(** What the framework answers when a view lets an exception escape. *)
Definition server_error_response : Response.t :=
  Response.mk JNull HTTP_500_INTERNAL_SERVER_ERROR.

(** ** Models ([senior_care/models.py]) *)

Module User.
Record t := mk {
  id : nat;
  username : string;
  email : string;
  password : string;
  first_name : string;
  last_name : string;
  user_type : string;
  phone_number : string
}.
End User.

Module Token.
Record t := mk {
  key : string;
  user : nat
}.
End Token.

Module VolunteerProfile.
Record t := mk {
  user : nat;
  ngo : nat;
  volunteer_id : string;
  (** [PositiveIntegerField(default=0)] *)
  total_hours : Z;
  seniors_helped : Z;
  tasks_completed : Z
}.
End VolunteerProfile.

Module Appointment.
Record t := mk {
  senior : nat;
  title : string;
  status : string;
  caretaker : option nat;
  notes : string;
  (** [DateTimeField(auto_now=True)] *)
  updated_at : Z
}.
Definition with_status (value : string) (a : t) : t :=
  mk (senior a) (title a) value (caretaker a) (notes a) (updated_at a).
Definition with_updated_at (value : Z) (a : t) : t :=
  mk (senior a) (title a) (status a) (caretaker a) (notes a) value.
End Appointment.

Module Medication.
Record t := mk {
  senior : nat;
  medication_name : string;
  dosage : string;
  frequency : string;
  is_active : bool
}.
End Medication.

Module VolunteerTask.
Record t := mk {
  senior : nat;
  volunteer : nat;
  ngo : nat;
  title : string;
  status : string;
  actual_start_time : option Z;
  actual_end_time : option Z;
  completion_notes : string;
  (** [DecimalField(max_digits=5, decimal_places=2, default=0.00)]; the
      record keeps the number the view assigns. *)
  hours_logged : Q
}.
Definition with_status (value : string) (k : t) : t :=
  mk (senior k) (volunteer k) (ngo k) (title k) value
     (actual_start_time k) (actual_end_time k) (completion_notes k)
     (hours_logged k).
Definition with_actual_start_time (value : option Z) (k : t) : t :=
  mk (senior k) (volunteer k) (ngo k) (title k) (status k)
     value (actual_end_time k) (completion_notes k) (hours_logged k).
Definition with_actual_end_time (value : option Z) (k : t) : t :=
  mk (senior k) (volunteer k) (ngo k) (title k) (status k)
     (actual_start_time k) value (completion_notes k) (hours_logged k).
Definition with_completion_notes (value : string) (k : t) : t :=
  mk (senior k) (volunteer k) (ngo k) (title k) (status k)
     (actual_start_time k) (actual_end_time k) value (hours_logged k).
Definition with_hours_logged (value : Q) (k : t) : t :=
  mk (senior k) (volunteer k) (ngo k) (title k) (status k)
     (actual_start_time k) (actual_end_time k) (completion_notes k) value.
End VolunteerTask.

Module EmergencyAlert.
Record t := mk {
  senior : nat;
  (** [DateTimeField(auto_now_add=True)]: never null *)
  alert_time : Z;
  alert_type : string;
  is_resolved : bool;
  resolved_at : option Z;
  resolved_by : option nat;
  response_time : option Z;
  resolution_notes : string
}.
End EmergencyAlert.

Module HealthRecord.
Record t := mk {
  senior : nat;
  heart_rate : option Z;
  recorded_by : option nat;
  notes : string
}.
End HealthRecord.

Module Event.
Record t := mk {
  ngo : nat;
  title : string;
  max_participants : Z;
  current_registrations : Z;
  is_active : bool
}.
Definition with_current_registrations (value : Z) (e : t) : t :=
  mk (ngo e) (title e) (max_participants e) value (is_active e).
End Event.

Module EventRegistration.
Record t := mk {
  event : nat;
  user : nat;
  registration_date : Z;
  attended : bool;
  check_in_time : option Z;
  notes : string
}.
End EventRegistration.

Module Notification.
Record t := mk {
  user : nat;
  title : string;
  message : string;
  notification_type : string;
  is_read : bool;
  read_at : option Z;
  link_url : string;
  created_at : Z
}.
Definition with_is_read (value : bool) (n : t) : t :=
  mk (user n) (title n) (message n) (notification_type n) value
     (read_at n) (link_url n) (created_at n).
Definition with_read_at (value : option Z) (n : t) : t :=
  mk (user n) (title n) (message n) (notification_type n) (is_read n)
     value (link_url n) (created_at n).
End Notification.

(** ** Serializers ([senior_care/serializers.py]) *)

Module UserSerializer.
(** The columns of [Meta.fields] that the embedding keeps. *)
Definition to_representation (user : User.t) : JSON :=
  JObj [("id", JInt (Z.of_nat (User.id user)));
        ("username", JStr (User.username user));
        ("email", JStr (User.email user));
        ("first_name", JStr (User.first_name user));
        ("last_name", JStr (User.last_name user));
        ("user_type", JStr (User.user_type user));
        ("phone_number", JStr (User.phone_number user))].
End UserSerializer.

Module RegisterSerializer.
(** The fields of [Meta.fields]: the texts that a request submits, or the
    values that [validate] receives. An optional field that a request
    leaves out is stored as the blank text, and is blank here. *)
Record attrs := mk {
  username : string;
  email : string;
  password : string;
  password2 : string;
  first_name : string;
  last_name : string;
  user_type : string;
  phone_number : string
}.

(** [to_internal_value] of the fields. [password] and [password2] are
    declared as [CharField], and [username], [email], [first_name],
    [last_name] and [phone_number] are built as [CharField]s from the
    model: a [CharField] has [trim_whitespace=True] and strips the
    submitted text. [user_type] has choices, so it is a [ChoiceField],
    which looks the text up as it is. *)
Definition to_internal_value (data : attrs) : attrs :=
  mk (strip (username data)) (strip (email data))
     (strip (password data)) (strip (password2 data))
     (strip (first_name data)) (strip (last_name data))
     (user_type data) (strip (phone_number data)).

(** [validate]: the error dictionary that is raised, or the attributes. *)
Definition validate (a : attrs) : JSON + attrs :=
  if negb (String.eqb (password a) (password2 a)) then
    inl (JObj [("password", JList [JStr "Passwords don't match."])])
  else inr a.

Section Create.
(** [User.objects.create_user] normalizes the e-mail address
    ([normalize_email] lowers the case of its domain) and the username
    ([normalize_username] is the NFKC normal form), and stores the hash of
    the password. *)
Variable normalize_email : string → string.
Variable normalize_username : string → string.
Variable make_password : string → string.

(** [create]: [password2] is dropped, the other fields go to
    [create_user]. [username] is a unique column: the insertion raises
    [IntegrityError] (here [None]) when a row has the username already. *)
Definition create (validated_data : attrs) (users : Table User.t)
  : option (User.t * Table User.t) :=
  let pk := fresh (dom users) in
  let user :=
    User.mk pk (normalize_username (username validated_data))
            (normalize_email (email validated_data))
            (make_password (password validated_data))
            (first_name validated_data) (last_name validated_data)
            (user_type validated_data) (phone_number validated_data) in
  if ORM.exists_
       (ORM.filter_by
          (λ u, String.eqb (User.username u) (User.username user)) users)
  then None
  else Some (user, <[pk := user]> users).
End Create.
End RegisterSerializer.

Module EventSerializer.
(** [ngo_name] is the name of the row that [ngo] refers to;
    [spaces_available] is declared with [source='max_participants']. *)
Definition to_representation (ngo_name : string) (pk : nat) (e : Event.t)
  : JSON :=
  JObj [("id", JInt (Z.of_nat pk));
        ("ngo_name", JStr ngo_name);
        ("spaces_available", JInt (Event.max_participants e));
        ("ngo", JInt (Z.of_nat (Event.ngo e)));
        ("title", JStr (Event.title e));
        ("max_participants", JInt (Event.max_participants e));
        ("current_registrations", JInt (Event.current_registrations e));
        ("is_active", JBool (Event.is_active e))].
End EventSerializer.

Module NotificationSerializer.
(** The writable fields of [fields = '__all__'] as a request may supply
    them: [None] is an absent key. [read_at] is nullable, so a supplied
    value is itself optional. *)
Record data := mk {
  user : option nat;
  title : option string;
  message : option string;
  notification_type : option string;
  is_read : option bool;
  read_at : option (option Z);
  link_url : option string
}.

Definition NOTIFICATION_TYPES : list string :=
  ["appointment"; "medication"; "task"; "emergency"; "event"; "general"].

Definition is_choice (value : string) : bool :=
  existsb (String.eqb value) NOTIFICATION_TYPES.

(** Field validation of the keys that are present: [title] and
    [link_url] have [max_length=200], [title] and [message] are not
    blank, [notification_type] is one of the choices. *)
Definition fields_valid (d : data) : bool :=
  from_option (λ s, negb (String.eqb s "") && (String.length s <=? 200)%nat)
              true (title d)
  && from_option (λ s, negb (String.eqb s "")) true (message d)
  && from_option is_choice true (notification_type d)
  && from_option (λ s, (String.length s <=? 200)%nat) true (link_url d).

(** [ModelSerializer.update]: every supplied field is assigned. *)
Definition update (instance : Notification.t) (validated_data : data)
  : Notification.t :=
  Notification.mk
    (default (Notification.user instance) (user validated_data))
    (default (Notification.title instance) (title validated_data))
    (default (Notification.message instance) (message validated_data))
    (default (Notification.notification_type instance)
             (notification_type validated_data))
    (default (Notification.is_read instance) (is_read validated_data))
    (default (Notification.read_at instance) (read_at validated_data))
    (default (Notification.link_url instance) (link_url validated_data))
    (Notification.created_at instance).

(** [ModelSerializer.create]: the required fields must be present, the
    others take the defaults of the model ([is_read=False], [read_at]
    null, [link_url] blank); [created_at] is [auto_now_add]. *)
Definition create (now : Z) (validated_data : data)
  : option Notification.t :=
  match user validated_data, title validated_data,
        message validated_data, notification_type validated_data with
  | Some u, Some ttl, Some msg, Some ty =>
      Some (Notification.mk u ttl msg ty
              (default false (is_read validated_data))
              (default None (read_at validated_data))
              (default "" (link_url validated_data))
              now)
  | _, _, _, _ => None
  end.
End NotificationSerializer.

(** ** Views ([senior_care/views.py]) *)

Module RegisterView.
Section Create.
(** The checks that [is_valid] runs on each field once it is stripped
    (blank required fields, lengths, choices, the unique username,
    [validate_password]): the errors they raise, if any. [validate] runs
    only when there are none. *)
Variable field_errors :
  RegisterSerializer.attrs → Table User.t → option JSON.
Variable normalize_email : string → string.
Variable normalize_username : string → string.
Variable make_password : string → string.
(** [Token.generate_key] for the token of a user *)
Variable generate_key : nat → string.

(** [serializer.is_valid(raise_exception=True)]: the fields are cleaned,
    then checked one by one, then handed to [validate]. *)
Definition is_valid (request_data : RegisterSerializer.attrs)
    (users : Table User.t) : JSON + RegisterSerializer.attrs :=
  let attrs := RegisterSerializer.to_internal_value request_data in
  match field_errors attrs users with
  | Some errors => inl errors
  | None => RegisterSerializer.validate attrs
  end.

(** The key of a token is its primary key in the database: the creation
    of a token raises [IntegrityError] when the key is in use, after the
    user row was written. *)
Definition create (request_data : RegisterSerializer.attrs)
    (users : Table User.t) (tokens : Table Token.t)
  : Response.t * (Table User.t * Table Token.t) :=
  match is_valid request_data users with
  | inl errors =>
      (Response.mk errors HTTP_400_BAD_REQUEST, (users, tokens))
  | inr validated_data =>
      match RegisterSerializer.create normalize_email normalize_username
                                      make_password validated_data users with
      | None => (server_error_response, (users, tokens))
      | Some (user, users) =>
          (* Token.objects.get_or_create(user=user) *)
          match ORM.get (λ k, Nat.eqb (Token.user k) (User.id user))
                        tokens with
          | ORM.Found _ token =>
              (Response.mk
                 (JObj [("user", UserSerializer.to_representation user);
                        ("token", JStr (Token.key token))])
                 HTTP_201_CREATED,
               (users, tokens))
          | ORM.DoesNotExist =>
              let token := Token.mk (generate_key (User.id user))
                                    (User.id user) in
              if ORM.exists_
                   (ORM.filter_by
                      (λ k, String.eqb (Token.key k) (Token.key token))
                      tokens)
              then (server_error_response, (users, tokens))
              else
                (Response.mk
                   (JObj [("user", UserSerializer.to_representation user);
                          ("token", JStr (Token.key token))])
                   HTTP_201_CREATED,
                 (users, ORM.create token tokens))
          | ORM.MultipleObjectsReturned =>
              (server_error_response, (users, tokens))
          end
      end
  end.
End Create.
End RegisterView.

Module AppointmentViewSet.
Definition get_queryset (user : User.t) (queryset : Table Appointment.t)
  : Table Appointment.t :=
  if String.eqb (User.user_type user) "senior" then
    ORM.filter_by (λ a, Nat.eqb (Appointment.senior a) (User.id user))
                  queryset
  else if String.eqb (User.user_type user) "caretaker" then
    ORM.filter_by
      (λ a, bool_decide (Appointment.caretaker a = Some (User.id user)))
      queryset
  else queryset.

(** [now] is the clock that [appointment.save()] reads for the
    [auto_now] column [updated_at]. *)
Definition confirm (now : Z) (user : User.t) (pk : nat)
    (queryset : Table Appointment.t) : Response.t * Table Appointment.t :=
  match ORM.get_object pk (get_queryset user queryset) with
  | None => (not_found_response, queryset)
  | Some appointment =>
      let appointment := Appointment.with_status "confirmed" appointment in
      let appointment := Appointment.with_updated_at now appointment in
      (message_response "Appointment confirmed.",
       ORM.save pk appointment queryset)
  end.

Definition complete (now : Z) (user : User.t) (pk : nat)
    (queryset : Table Appointment.t) : Response.t * Table Appointment.t :=
  match ORM.get_object pk (get_queryset user queryset) with
  | None => (not_found_response, queryset)
  | Some appointment =>
      let appointment := Appointment.with_status "completed" appointment in
      let appointment := Appointment.with_updated_at now appointment in
      (message_response "Appointment marked as completed.",
       ORM.save pk appointment queryset)
  end.
End AppointmentViewSet.

Module MedicationViewSet.
Definition get_queryset (user : User.t) (queryset : Table Medication.t)
  : Table Medication.t :=
  if String.eqb (User.user_type user) "senior" then
    ORM.filter_by (λ m, Nat.eqb (Medication.senior m) (User.id user))
                  queryset
  else queryset.

(** The rows that [active] serializes. *)
Definition active (user : User.t) (queryset : Table Medication.t)
  : Table Medication.t :=
  ORM.filter_by Medication.is_active (get_queryset user queryset).
End MedicationViewSet.

Module VolunteerTaskViewSet.
Definition get_queryset (user : User.t) (queryset : Table VolunteerTask.t)
  : Table VolunteerTask.t :=
  if String.eqb (User.user_type user) "volunteer" then
    ORM.filter_by (λ k, Nat.eqb (VolunteerTask.volunteer k) (User.id user))
                  queryset
  else if String.eqb (User.user_type user) "senior" then
    ORM.filter_by (λ k, Nat.eqb (VolunteerTask.senior k) (User.id user))
                  queryset
  else queryset.

Definition accept (user : User.t) (pk : nat)
    (queryset : Table VolunteerTask.t)
  : Response.t * Table VolunteerTask.t :=
  match ORM.get_object pk (get_queryset user queryset) with
  | None => (not_found_response, queryset)
  | Some task =>
      let task := VolunteerTask.with_status "accepted" task in
      (message_response "Task accepted.", ORM.save pk task queryset)
  end.

Definition start (now : Z) (user : User.t) (pk : nat)
    (queryset : Table VolunteerTask.t)
  : Response.t * Table VolunteerTask.t :=
  match ORM.get_object pk (get_queryset user queryset) with
  | None => (not_found_response, queryset)
  | Some task =>
      let task := VolunteerTask.with_status "in_progress" task in
      let task := VolunteerTask.with_actual_start_time (Some now) task in
      (message_response "Task started.", ORM.save pk task queryset)
  end.

(** The task as [complete] has it in memory when it calls [task.save()];
    [completion_notes] is the text that the view assigns. *)
Definition completed_task (now : Z) (completion_notes : string)
    (task : VolunteerTask.t) : VolunteerTask.t :=
  let task := VolunteerTask.with_status "completed" task in
  let task := VolunteerTask.with_actual_end_time (Some now) task in
  (* Calculate hours *)
  let task :=
    match VolunteerTask.actual_start_time task,
          VolunteerTask.actual_end_time task with
    | Some actual_start_time, Some actual_end_time =>
        let duration := actual_end_time - actual_start_time in
        VolunteerTask.with_hours_logged
          (total_seconds duration / inject_Z 3600)%Q task
    | _, _ => task
    end in
  VolunteerTask.with_completion_notes completion_notes task.

(** The profile row that [volunteer.save()] writes: [total_hours] is an
    integer column, so the sum goes through its [get_prep_value]. The sum
    is the exact one; Python adds floating-point numbers, whose sum has
    the same integer part as long as the total is below 2^22 hours and
    the task took between nothing and a thousand hours. *)
Definition updated_stats (task : VolunteerTask.t)
    (volunteer : VolunteerProfile.t) : VolunteerProfile.t :=
  let total_hours :=
    (inject_Z (VolunteerProfile.total_hours volunteer)
     + VolunteerTask.hours_logged task)%Q in
  let tasks_completed := VolunteerProfile.tasks_completed volunteer + 1 in
  VolunteerProfile.mk
    (VolunteerProfile.user volunteer) (VolunteerProfile.ngo volunteer)
    (VolunteerProfile.volunteer_id volunteer)
    (ORM.IntegerField_get_prep_value total_hours)
    (VolunteerProfile.seniors_helped volunteer)
    tasks_completed.

(** [notes] is the member [notes] of the request body: absent ([None]),
    null ([Some None]) or a value whose text is [s] ([Some (Some s)]), so
    that [request.data.get('notes', '')] is [default (Some "") notes].
    None of the exceptions of the two [save()] calls is caught:
    [task.save()] raises when the notes are null ([completion_notes] is
    not nullable) and when [hours_logged] does not fit its column, and
    then nothing is written; [volunteer.save()] raises when a counter is
    negative, and then the task is written and the profile is not. *)
Definition complete (now : Z) (notes : option (option string))
    (user : User.t) (pk : nat) (queryset : Table VolunteerTask.t)
    (profiles : Table VolunteerProfile.t)
  : Response.t * (Table VolunteerTask.t * Table VolunteerProfile.t) :=
  match ORM.get_object pk (get_queryset user queryset) with
  | None => (not_found_response, (queryset, profiles))
  | Some task =>
      match default (Some "") notes with
      | None => (server_error_response, (queryset, profiles))
      | Some completion_notes =>
          let task := completed_task now completion_notes task in
          if ORM.DecimalField_5_2_overflows (VolunteerTask.hours_logged task)
          then (server_error_response, (queryset, profiles))
          else
            let queryset := ORM.save pk task queryset in
            (* Update volunteer stats *)
            match ORM.get (λ p, Nat.eqb (VolunteerProfile.user p)
                                        (VolunteerTask.volunteer task))
                          profiles with
            | ORM.Found vpk volunteer =>
                let volunteer := updated_stats task volunteer in
                if ORM.PositiveIntegerField_violated
                     (VolunteerProfile.total_hours volunteer)
                   || ORM.PositiveIntegerField_violated
                        (VolunteerProfile.seniors_helped volunteer)
                   || ORM.PositiveIntegerField_violated
                        (VolunteerProfile.tasks_completed volunteer)
                then (server_error_response, (queryset, profiles))
                else
                  (message_response "Task completed successfully.",
                   (queryset, ORM.save vpk volunteer profiles))
            | ORM.DoesNotExist =>
                (message_response "Task completed successfully.",
                 (queryset, profiles))
            | ORM.MultipleObjectsReturned =>
                (server_error_response, (queryset, profiles))
            end
      end
  end.

(** [status__in=[...]] *)
Definition status_in (choices : list string) (task : VolunteerTask.t) : bool :=
  existsb (String.eqb (VolunteerTask.status task)) choices.

(** The rows that [my_tasks] serializes (their order, by scheduled date
    and time, is not modelled). *)
Definition my_tasks (user : User.t) (queryset : Table VolunteerTask.t)
  : Table VolunteerTask.t :=
  ORM.filter_by (status_in ["assigned"; "accepted"; "in_progress"])
                (get_queryset user queryset).
End VolunteerTaskViewSet.

Module EmergencyAlertViewSet.
(** [now1] is the clock at [alert.resolved_at = timezone.now()], [now2]
    the clock at [timezone.now() - alert.alert_time]. The guard
    [if alert.alert_time] holds for every stored alert. [notes] is the
    member [notes] of the request body: absent ([None]), null
    ([Some None]) or a value whose text is [s] ([Some (Some s)]), so that
    [request.data.get('notes', '')] is [default (Some "") notes]. When it
    is null, [alert.save()] raises ([resolution_notes] is not nullable)
    and nothing is written. *)
Definition resolve (now1 now2 : Z) (notes : option (option string))
    (user : User.t) (pk : nat) (queryset : Table EmergencyAlert.t)
  : Response.t * Table EmergencyAlert.t :=
  match ORM.get_object pk queryset with
  | None => (not_found_response, queryset)
  | Some alert =>
      match default (Some "") notes with
      | None => (server_error_response, queryset)
      | Some resolution_notes =>
          let alert :=
            EmergencyAlert.mk
              (EmergencyAlert.senior alert)
              (EmergencyAlert.alert_time alert)
              (EmergencyAlert.alert_type alert)
              true
              (Some now1)
              (Some (User.id user))
              (* Calculate response time *)
              (Some (now2 - EmergencyAlert.alert_time alert))
              resolution_notes in
          (message_response "Alert resolved successfully.",
           ORM.save pk alert queryset)
      end
  end.

(** The rows that [active] serializes (their order, latest alert first,
    is not modelled). *)
Definition active (queryset : Table EmergencyAlert.t)
  : Table EmergencyAlert.t :=
  ORM.filter_by (λ a, negb (EmergencyAlert.is_resolved a)) queryset.
End EmergencyAlertViewSet.

Module HealthRecordViewSet.
Definition get_queryset (user : User.t) (queryset : Table HealthRecord.t)
  : Table HealthRecord.t :=
  if String.eqb (User.user_type user) "senior" then
    ORM.filter_by (λ r, Nat.eqb (HealthRecord.senior r) (User.id user))
                  queryset
  else queryset.
End HealthRecordViewSet.

Module EventViewSet.
(** The registrations of one user for one event:
    [EventRegistration.objects.filter(event=event, user=request.user)]. *)
Definition registrations_of (pk : nat) (user : User.t)
    (registrations : Table EventRegistration.t)
  : Table EventRegistration.t :=
  ORM.filter_by
    (λ r, Nat.eqb (EventRegistration.event r) pk
          && Nat.eqb (EventRegistration.user r) (User.id user))
    registrations.

Definition register (now : Z) (user : User.t) (pk : nat)
    (queryset : Table Event.t) (registrations : Table EventRegistration.t)
  : Response.t * (Table Event.t * Table EventRegistration.t) :=
  match ORM.get_object pk queryset with
  | None => (not_found_response, (queryset, registrations))
  | Some event =>
      (* Check if already registered *)
      if ORM.exists_ (registrations_of pk user registrations) then
        (error_response "Already registered for this event."
                        HTTP_400_BAD_REQUEST,
         (queryset, registrations))
      (* Check capacity *)
      else if (Event.current_registrations event
               >=? Event.max_participants event)%Z then
        (error_response "Event is full." HTTP_400_BAD_REQUEST,
         (queryset, registrations))
      else
        (* Create registration *)
        let registrations :=
          ORM.create
            (EventRegistration.mk pk (User.id user) now false None "")
            registrations in
        let event :=
          Event.with_current_registrations
            (Event.current_registrations event + 1) event in
        (message_response "Successfully registered for event.",
         (ORM.save pk event queryset, registrations))
  end.
End EventViewSet.

Module NotificationViewSet.
Definition get_queryset (user : User.t) (queryset : Table Notification.t)
  : Table Notification.t :=
  ORM.filter_by (λ n, Nat.eqb (Notification.user n) (User.id user))
                queryset.

Definition mark_read (now : Z) (user : User.t) (pk : nat)
    (queryset : Table Notification.t)
  : Response.t * Table Notification.t :=
  match ORM.get_object pk (get_queryset user queryset) with
  | None => (not_found_response, queryset)
  | Some notification =>
      let notification := Notification.with_is_read true notification in
      let notification :=
        Notification.with_read_at (Some now) notification in
      (message_response "Notification marked as read.",
       ORM.save pk notification queryset)
  end.

Definition mark_all_read (now : Z) (user : User.t)
    (queryset : Table Notification.t)
  : Response.t * Table Notification.t :=
  (message_response "All notifications marked as read.",
   ORM.update
     (λ n, Notification.with_read_at (Some now)
             (Notification.with_is_read true n))
     (get_queryset user queryset) queryset).

(** The inherited [create] of [ModelViewSet] (POST on the collection).
    The bodies of the inherited actions (the serialized row, or the field
    errors) are not modelled: only the status and the table are. *)
Definition create (now : Z) (request_data : NotificationSerializer.data)
    (queryset : Table Notification.t)
  : Response.t * Table Notification.t :=
  if NotificationSerializer.fields_valid request_data then
    match NotificationSerializer.create now request_data with
    | Some notification =>
        (Response.mk JNull HTTP_201_CREATED,
         ORM.create notification queryset)
    | None =>
        (Response.mk JNull HTTP_400_BAD_REQUEST, queryset)
    end
  else (Response.mk JNull HTTP_400_BAD_REQUEST, queryset).

(** The inherited [partial_update] of [ModelViewSet] (PATCH on a row). *)
Definition partial_update (request_data : NotificationSerializer.data)
    (user : User.t) (pk : nat) (queryset : Table Notification.t)
  : Response.t * Table Notification.t :=
  match ORM.get_object pk (get_queryset user queryset) with
  | None => (not_found_response, queryset)
  | Some instance =>
      if NotificationSerializer.fields_valid request_data then
        (Response.mk JNull HTTP_200_OK,
         ORM.save pk (NotificationSerializer.update instance request_data)
                  queryset)
      else (Response.mk JNull HTTP_400_BAD_REQUEST, queryset)
  end.

(** The rows that [unread] serializes. *)
Definition unread (user : User.t) (queryset : Table Notification.t)
  : Table Notification.t :=
  ORM.filter_by (λ n, negb (Notification.is_read n))
                (get_queryset user queryset).
End NotificationViewSet.

Module LogoutView.
(** [request.user.auth_token] raises when the user has no token, and the
    view does not catch it. The session that [logout(request)] flushes is
    not modelled. *)
Definition post (user : User.t) (tokens : Table Token.t)
  : Response.t * Table Token.t :=
  match ORM.get (λ k, Nat.eqb (Token.user k) (User.id user)) tokens with
  | ORM.Found pk _ =>
      (Response.mk (JObj [("message", JStr "Successfully logged out.")])
                   HTTP_200_OK,
       ORM.delete pk tokens)
  | ORM.DoesNotExist | ORM.MultipleObjectsReturned =>
      (server_error_response, tokens)
  end.
End LogoutView.

Module DashboardStatsView.
(** [VolunteerTask.objects.filter(volunteer=user,
    status__in=['assigned', 'accepted'])] *)
Definition pending_tasks (user : User.t) (tasks : Table VolunteerTask.t)
  : Table VolunteerTask.t :=
  ORM.filter_by
    (λ k, Nat.eqb (VolunteerTask.volunteer k) (User.id user)
          && VolunteerTaskViewSet.status_in ["assigned"; "accepted"] k)
    tasks.

(** The dictionary of statistics, or nothing when [get] raises
    [MultipleObjectsReturned], which the view does not catch. *)
Definition _get_volunteer_stats (user : User.t)
    (profiles : Table VolunteerProfile.t) (tasks : Table VolunteerTask.t)
  : option JSON :=
  match ORM.get (λ p, Nat.eqb (VolunteerProfile.user p) (User.id user))
                profiles with
  | ORM.Found _ profile =>
      Some (JObj
        [("total_hours", JInt (VolunteerProfile.total_hours profile));
         ("seniors_helped", JInt (VolunteerProfile.seniors_helped profile));
         ("tasks_completed", JInt (VolunteerProfile.tasks_completed profile));
         ("pending_tasks",
          JInt (Z.of_nat (ORM.count (pending_tasks user tasks))))])
  | ORM.DoesNotExist => Some (JObj [])
  | ORM.MultipleObjectsReturned => None
  end.
End DashboardStatsView.

(** ** Admin actions ([senior_care/admin.py]) *)

Module NotificationAdmin.
(** An action receives the rows that the administrator selected; it
    answers with the message shown to the administrator. *)
Definition mark_as_read (now : Z) (selected : gset nat)
    (tbl : Table Notification.t) : string * Table Notification.t :=
  let queryset := ORM.filter_pk selected tbl in
  let updated := ORM.count queryset in
  (pretty updated ++ " notifications marked as read.",
   ORM.update
     (λ n, Notification.with_read_at (Some now)
             (Notification.with_is_read true n))
     queryset tbl).

Definition mark_as_unread (selected : gset nat)
    (tbl : Table Notification.t) : string * Table Notification.t :=
  let queryset := ORM.filter_pk selected tbl in
  let updated := ORM.count queryset in
  (pretty updated ++ " notifications marked as unread.",
   ORM.update
     (λ n, Notification.with_read_at None
             (Notification.with_is_read false n))
     queryset tbl).
End NotificationAdmin.

Module VolunteerTaskAdmin.
Definition mark_completed (now : Z) (selected : gset nat)
    (tbl : Table VolunteerTask.t) : string * Table VolunteerTask.t :=
  let queryset := ORM.filter_pk selected tbl in
  let updated := ORM.count queryset in
  (pretty updated ++ " tasks marked as completed.",
   ORM.update
     (λ k, VolunteerTask.with_actual_end_time (Some now)
             (VolunteerTask.with_status "completed" k))
     queryset tbl).

Definition mark_cancelled (selected : gset nat)
    (tbl : Table VolunteerTask.t) : string * Table VolunteerTask.t :=
  let queryset := ORM.filter_pk selected tbl in
  let updated := ORM.count queryset in
  (pretty updated ++ " tasks cancelled.",
   ORM.update (VolunteerTask.with_status "cancelled") queryset tbl).
End VolunteerTaskAdmin.

Module EmergencyAlertAdmin.
Definition mark_resolved (now : Z) (selected : gset nat)
    (tbl : Table EmergencyAlert.t) : string * Table EmergencyAlert.t :=
  let queryset := ORM.filter_pk selected tbl in
  let updated := ORM.count queryset in
  (pretty updated ++ " alerts marked as resolved.",
   ORM.update
     (λ a, EmergencyAlert.mk
             (EmergencyAlert.senior a) (EmergencyAlert.alert_time a)
             (EmergencyAlert.alert_type a)
             true
             (Some now)
             (EmergencyAlert.resolved_by a) (EmergencyAlert.response_time a)
             (EmergencyAlert.resolution_notes a))
     queryset tbl).
End EmergencyAlertAdmin.

(** ** Interleaved [register] requests

    [EventViewSet.register] runs four database operations one after the
    other: the read of the event ([get_object]), the [exists()] query, the
    [create] of the registration and the [save] of the event. When several
    requests are served at once, operations of different requests
    interleave (each operation commits on its own, as Django does by
    default); each request keeps the event it read in memory. *)

Module Interleaving.
(** Where a request stands. *)
Inductive in_flight :=
| Received (now : Z) (user : User.t) (pk : nat)
| Loaded (now : Z) (user : User.t) (pk : nat) (event : Event.t)
| Checked (now : Z) (user : User.t) (pk : nat) (event : Event.t)
| Created (pk : nat) (event : Event.t)
| Answered (response : Response.t).

(** The next database operation of a request, with the checks that follow
    it in the view. [create] fails on a second row for the same event and
    user ([unique_together]), which the view does not catch. *)
Definition advance (request : in_flight) (events : Table Event.t)
    (registrations : Table EventRegistration.t)
  : in_flight * (Table Event.t * Table EventRegistration.t) :=
  match request with
  | Received now user pk =>
      match ORM.get_object pk events with
      | None => (Answered not_found_response, (events, registrations))
      | Some event => (Loaded now user pk event, (events, registrations))
      end
  | Loaded now user pk event =>
      if ORM.exists_ (EventViewSet.registrations_of pk user registrations)
      then
        (Answered (error_response "Already registered for this event."
                                  HTTP_400_BAD_REQUEST),
         (events, registrations))
      else if (Event.current_registrations event
               >=? Event.max_participants event)%Z then
        (Answered (error_response "Event is full." HTTP_400_BAD_REQUEST),
         (events, registrations))
      else (Checked now user pk event, (events, registrations))
  | Checked now user pk event =>
      if ORM.exists_ (EventViewSet.registrations_of pk user registrations)
      then (Answered server_error_response, (events, registrations))
      else
        (Created pk event,
         (events,
          ORM.create (EventRegistration.mk pk (User.id user) now false None "")
                     registrations))
  | Created pk event =>
      let event :=
        Event.with_current_registrations
          (Event.current_registrations event + 1) event in
      (Answered (message_response "Successfully registered for event."),
       (ORM.save pk event events, registrations))
  | Answered response => (Answered response, (events, registrations))
  end.

Record state := mk {
  events : Table Event.t;
  registrations : Table EventRegistration.t;
  requests : list in_flight
}.

(** The request number [i] performs its next operation. *)
Definition step (i : nat) (s : state) : state :=
  match requests s !! i with
  | None => s
  | Some request =>
      let '(request, (events, registrations)) :=
        advance request (events s) (registrations s) in
      mk events registrations (<[i := request]> (requests s))
  end.

(** A schedule names the request that moves next, again and again. *)
Definition run (schedule : list nat) (s : state) : state :=
  foldl (λ s i, step i s) s schedule.

(** The event that a request holds in memory once the capacity check has
    passed has a free place. *)
Definition checked_has_room (request : in_flight) : Prop :=
  match request with
  | Checked _ _ _ event | Created _ event =>
      Event.current_registrations event < Event.max_participants event
  | _ => True
  end.
End Interleaving.

(** ** Vocabulary of the specification *)

(** The admin roles of [USER_TYPE_CHOICES]. *)
Definition is_admin (user : User.t) : Prop :=
  User.user_type user = "senior_admin" ∨ User.user_type user = "ngo_admin".

(** [qs] is exactly the set of the rows of [tbl] that satisfy [P]. *)
Definition selects {Row : Type} (P : Row → Prop) (tbl qs : Table Row) : Prop :=
  ∀ pk row, qs !! pk = Some row ↔ tbl !! pk = Some row ∧ P row.

(** Visibility scoping as the specification words it for caretakers, for a
    reference [actor] of the row to its assigned actor: a caretaker lists
    exactly the rows whose assigned actor they are. *)
Definition caretaker_sees_assigned {Row : Type}
    (get_queryset : User.t → Table Row → Table Row)
    (actor : Row → option nat) : Prop :=
  ∀ user tbl,
    User.user_type user = "caretaker" →
    selects (λ row, actor row = Some (User.id user)) tbl
            (get_queryset user tbl).

(** The transition rule as the specification words it for [confirm]: an
    appointment whose status is neither scheduled nor confirmed is not
    moved to confirmed. *)
Definition confirm_only_from_scheduled_or_confirmed : Prop :=
  ∀ now user pk appointments before after,
    AppointmentViewSet.get_queryset user appointments !! pk = Some before →
    Appointment.status before ≠ "scheduled" →
    Appointment.status before ≠ "confirmed" →
    (AppointmentViewSet.confirm now user pk appointments).2 !! pk
    = Some after →
    Appointment.status after ≠ "confirmed".

(** The rule on passwords as the specification words it: a registration
    request whose submitted [password] and [password2] differ is refused
    with validation errors and writes nothing, whatever the checks of the
    fields, the normalization, the hashing and the token keys are. *)
Definition mismatch_is_refused : Prop :=
  ∀ field_errors normalize_email normalize_username make_password
    generate_key request_data users tokens,
    RegisterSerializer.password request_data
    ≠ RegisterSerializer.password2 request_data →
    ∃ errors,
      RegisterView.create field_errors normalize_email normalize_username
                          make_password generate_key
                          request_data users tokens
      = (Response.mk errors HTTP_400_BAD_REQUEST, (users, tokens)).

(** The error taxonomy of the specification, as [register] answers it. *)
Definition Conflict : Response.t :=
  error_response "Already registered for this event." HTTP_400_BAD_REQUEST.

Definition CapacityExceeded : Response.t :=
  error_response "Event is full." HTTP_400_BAD_REQUEST.

(** A registration row for the event [pk] and the user exists. *)
Definition registered (pk : nat) (user : User.t)
    (registrations : Table EventRegistration.t) : Prop :=
  ∃ rpk row,
    registrations !! rpk = Some row
    ∧ EventRegistration.event row = pk
    ∧ EventRegistration.user row = User.id user.

(** The event [pk], if it exists, holds no more registrations than it has
    places. *)
Definition event_within_capacity (pk : nat) (events : Table Event.t) : Prop :=
  ∀ e, events !! pk = Some e →
       Event.current_registrations e <= Event.max_participants e.

(** No event holds more registrations than it has places. *)
Definition within_capacity (events : Table Event.t) : Prop :=
  map_Forall
    (λ _ e, Event.current_registrations e <= Event.max_participants e)
    events.

(** A sequence of [register] requests, one after the other: each is the
    clock, the caller and the event of the request. *)
Fixpoint register_all (requests : list (Z * User.t * nat))
    (db : Table Event.t * Table EventRegistration.t)
  : Table Event.t * Table EventRegistration.t :=
  match requests with
  | [] => db
  | (now, user, pk) :: rest =>
      register_all rest (EventViewSet.register now user pk db.1 db.2).2
  end.

(** [read_at] is set exactly when [is_read] is true. *)
Definition read_at_iff_is_read (n : Notification.t) : Prop :=
  is_Some (Notification.read_at n) ↔ Notification.is_read n = true.

Definition notifications_consistent (tbl : Table Notification.t) : Prop :=
  map_Forall (λ _ n, read_at_iff_is_read n) tbl.

(** The requests that create a notification without [is_read] and
    [read_at] (so that the defaults of the model apply) or that go through
    the dedicated actions. *)
Inductive notification_request :=
| CreateWithDefaults (now : Z) (user : nat)
    (title message notification_type : string) (link_url : option string)
| MarkRead (now : Z) (caller : User.t) (pk : nat)
| MarkAllRead (now : Z) (caller : User.t).

Definition handle (request : notification_request)
    (tbl : Table Notification.t) : Table Notification.t :=
  match request with
  | CreateWithDefaults now user title message notification_type link_url =>
      (NotificationViewSet.create now
         (NotificationSerializer.mk (Some user) (Some title) (Some message)
            (Some notification_type) None None link_url)
         tbl).2
  | MarkRead now caller pk =>
      (NotificationViewSet.mark_read now caller pk tbl).2
  | MarkAllRead now caller =>
      (NotificationViewSet.mark_all_read now caller tbl).2
  end.

Definition handle_all (requests : list notification_request)
    (tbl : Table Notification.t) : Table Notification.t :=
  foldl (λ tbl request, handle request tbl) tbl requests.

(** The invariant as the specification words it for the generic update
    endpoint: a PATCH of a notification preserves it. *)
Definition partial_update_keeps_consistent : Prop :=
  ∀ request_data caller pk tbl,
    notifications_consistent tbl →
    notifications_consistent
      (NotificationViewSet.partial_update request_data caller pk tbl).2.

(** The registration rows of the event [pk]. *)
Definition registrations_for (pk : nat)
    (registrations : Table EventRegistration.t) : Table EventRegistration.t :=
  ORM.filter_by (λ r, Nat.eqb (EventRegistration.event r) pk) registrations.

(** The counter of every event is the number of its registration rows. *)
Definition counter_in_sync (events : Table Event.t)
    (registrations : Table EventRegistration.t) : Prop :=
  ∀ pk e, events !! pk = Some e →
          Event.current_registrations e
          = Z.of_nat (ORM.count (registrations_for pk registrations)).

(** Every token belongs to a user of the table (the foreign key of
    [Token.user]). *)
Definition tokens_refer_to_users (users : Table User.t)
    (tokens : Table Token.t) : Prop :=
  ∀ k token, tokens !! k = Some token → is_Some (users !! Token.user token).

(** The caller may see the task: a volunteer sees the tasks assigned to
    them, a senior the tasks done for them, every other role all tasks. *)
Definition sees_task (user : User.t) (task : VolunteerTask.t) : Prop :=
  (User.user_type user = "volunteer" →
   VolunteerTask.volunteer task = User.id user)
  ∧ (User.user_type user = "senior" →
     VolunteerTask.senior task = User.id user).

(** One entry of the statistics of a volunteer. *)
Definition stat (key : string) (stats : option JSON) : option JSON :=
  stats ≫= json_get key.

(** * Properties *)

(** ** The object-relational layer *)

Section ORMFacts.
Context {Row : Type}.
Implicit Types (tbl qs : Table Row) (cond : Row → bool).

Lemma lookup_filter_by cond qs pk row :
  ORM.filter_by cond qs !! pk = Some row ↔
  qs !! pk = Some row ∧ cond row = true.
Proof. unfold ORM.filter_by. by rewrite map_lookup_filter_Some. Qed.

Lemma exists_true qs :
  ORM.exists_ qs = true ↔ ∃ pk row, qs !! pk = Some row.
Proof.
  unfold ORM.exists_. rewrite negb_true_iff, Nat.eqb_neq.
  rewrite map_size_ne_0_lookup. split.
  - intros [pk [row H]]. eauto.
  - intros (pk & row & H). exists pk. eauto.
Qed.

Lemma lookup_create_fresh tbl : tbl !! fresh (dom tbl) = None.
Proof. apply not_elem_of_dom, is_fresh. Qed.

Lemma lookup_update (assign : Row → Row) qs tbl pk :
  ORM.update assign qs tbl !! pk =
  match qs !! pk with
  | Some row => Some (assign row)
  | None => tbl !! pk
  end.
Proof.
  unfold ORM.update. rewrite lookup_union, lookup_fmap.
  by destruct (qs !! pk), (tbl !! pk).
Qed.

End ORMFacts.

(** ** Visibility scoping *)

Lemma selects_filter_by {Row : Type} (cond : Row → bool) (P : Row → Prop)
    (tbl : Table Row) :
  (∀ row, cond row = true ↔ P row) →
  selects P tbl (ORM.filter_by cond tbl).
Proof.
  intros Hcond pk row. rewrite lookup_filter_by. by rewrite Hcond.
Qed.

(** C1 (amended). For a caller [user] and the tables of the four
    role-sensitive resources: an admin role gets every row of each table; a
    senior gets exactly the rows whose [senior] is the caller; a caretaker
    gets exactly the appointments whose [caretaker] is the caller, and
    every medication and every health record; a volunteer gets exactly the
    tasks whose [volunteer] is the caller. *)
Theorem get_queryset_scoping (user : User.t)
    (appointments : Table Appointment.t) (medications : Table Medication.t)
    (tasks : Table VolunteerTask.t) (records : Table HealthRecord.t) :
  (is_admin user →
     AppointmentViewSet.get_queryset user appointments = appointments
     ∧ MedicationViewSet.get_queryset user medications = medications
     ∧ VolunteerTaskViewSet.get_queryset user tasks = tasks
     ∧ HealthRecordViewSet.get_queryset user records = records)
  ∧ (User.user_type user = "senior" →
     selects (λ a, Appointment.senior a = User.id user) appointments
             (AppointmentViewSet.get_queryset user appointments)
     ∧ selects (λ m, Medication.senior m = User.id user) medications
               (MedicationViewSet.get_queryset user medications)
     ∧ selects (λ k, VolunteerTask.senior k = User.id user) tasks
               (VolunteerTaskViewSet.get_queryset user tasks)
     ∧ selects (λ r, HealthRecord.senior r = User.id user) records
               (HealthRecordViewSet.get_queryset user records))
  ∧ (User.user_type user = "caretaker" →
     selects (λ a, Appointment.caretaker a = Some (User.id user)) appointments
             (AppointmentViewSet.get_queryset user appointments)
     ∧ MedicationViewSet.get_queryset user medications = medications
     ∧ HealthRecordViewSet.get_queryset user records = records)
  ∧ (User.user_type user = "volunteer" →
     selects (λ k, VolunteerTask.volunteer k = User.id user) tasks
             (VolunteerTaskViewSet.get_queryset user tasks)).
Proof.
  unfold AppointmentViewSet.get_queryset, MedicationViewSet.get_queryset,
    VolunteerTaskViewSet.get_queryset, HealthRecordViewSet.get_queryset.
  split; [| split; [| split]].
  - intros [-> | ->]; repeat split.
  - intros ->. simpl.
    repeat apply conj; apply selects_filter_by; intros x; apply Nat.eqb_eq.
  - intros ->. simpl. repeat apply conj; try reflexivity.
    apply selects_filter_by. intros a. apply bool_decide_eq_true.
  - intros ->. simpl. apply selects_filter_by. intros k. apply Nat.eqb_eq.
Qed.

Lemma caretakers_see_every_row {Row : Type}
    (get_queryset : User.t → Table Row → Table Row) (row : Row) :
  (∀ user tbl, User.user_type user = "caretaker" →
               get_queryset user tbl = tbl) →
  ¬ ∃ actor, caretaker_sees_assigned get_queryset actor.
Proof.
  intros Hall [actor Hclaim].
  pose (carer := λ pk, User.mk pk "" "" "" "" "" "caretaker" "").
  pose (tbl := {[ 1%nat := row ]} : Table Row).
  assert (Hrow : tbl !! 1%nat = Some row) by apply lookup_singleton_eq.
  assert (Hsees : ∀ pk, actor row = Some pk).
  { intros pk.
    destruct (Hclaim (carer pk) tbl eq_refl 1%nat row) as [Hin _].
    rewrite (Hall (carer pk) tbl eq_refl) in Hin.
    by destruct (Hin Hrow). }
  pose proof (Hsees 2%nat) as H2. rewrite (Hsees 3%nat) in H2. discriminate.
Qed.

(** C1 (as stated, refuted). Two caretakers both list the medication (the
    health record) of a senior, so no reference of a medication or of a
    health record can be the assigned actor by which the rows that a
    caretaker lists are selected. *)
Lemma caretaker_scoping_counterexample :
  (¬ ∃ actor, caretaker_sees_assigned MedicationViewSet.get_queryset actor)
  ∧ (¬ ∃ actor, caretaker_sees_assigned HealthRecordViewSet.get_queryset actor).
Proof.
  split.
  - apply caretakers_see_every_row.
    + exact (Medication.mk 7 "aspirin" "100 mg" "daily" true).
    + intros user tbl Hrole. unfold MedicationViewSet.get_queryset.
      by rewrite Hrole.
  - apply caretakers_see_every_row.
    + exact (HealthRecord.mk 7 (Some 72) (Some 2%nat) "").
    + intros user tbl Hrole. unfold HealthRecordViewSet.get_queryset.
      by rewrite Hrole.
Qed.

(** A caretaker with two appointments, one of them theirs, one medication
    and one health record of a senior. *)
Lemma get_queryset_scoping_witness :
  let user := User.mk 2 "carol" "" "" "Carol" "Diaz" "caretaker" "" in
  let appointments : Table Appointment.t :=
    <[ 1%nat := Appointment.mk 7 "Checkup" "scheduled" (Some 2%nat) "" 0 ]>
      {[ 2%nat := Appointment.mk 7 "Therapy" "scheduled" (Some 3%nat) "" 0 ]} in
  let medications : Table Medication.t :=
    {[ 1%nat := Medication.mk 7 "aspirin" "100 mg" "daily" true ]} in
  let records : Table HealthRecord.t :=
    {[ 1%nat := HealthRecord.mk 7 (Some 72) (Some 3%nat) "" ]} in
  selects (λ a, Appointment.caretaker a = Some (User.id user)) appointments
          (AppointmentViewSet.get_queryset user appointments)
  ∧ MedicationViewSet.get_queryset user medications = medications
  ∧ HealthRecordViewSet.get_queryset user records = records.
Proof.
  intros user appointments medications records.
  apply (proj1 (proj2 (proj2 (get_queryset_scoping user appointments
                                medications ∅ records)))).
  reflexivity.
Defined.

(** ** Status transitions of appointments *)

(** C7 (amended). For an appointment that the caller can see, whatever its
    status was, [confirm] answers 200 and stores the appointment with the
    status confirmed. (What else the action writes: [save()] stamps
    [updated_at] with the clock; the columns [senior], [title],
    [caretaker] and [notes] and the other appointments are stored as they
    were.) *)
Theorem confirm_sets_confirmed (now : Z) (user : User.t) (pk : nat)
    (appointments : Table Appointment.t) (before : Appointment.t) :
  AppointmentViewSet.get_queryset user appointments !! pk = Some before →
  ∃ after,
    AppointmentViewSet.confirm now user pk appointments
    = (message_response "Appointment confirmed.",
       <[pk := after]> appointments)
    ∧ Appointment.status after = "confirmed"
    ∧ Appointment.updated_at after = now
    ∧ Appointment.senior after = Appointment.senior before
    ∧ Appointment.title after = Appointment.title before
    ∧ Appointment.caretaker after = Appointment.caretaker before
    ∧ Appointment.notes after = Appointment.notes before.
Proof.
  intros Hvisible.
  exists (Appointment.with_updated_at now
            (Appointment.with_status "confirmed" before)).
  unfold AppointmentViewSet.confirm, ORM.get_object. rewrite Hvisible.
  by repeat split.
Qed.

(** A cancelled appointment of senior 7, last saved at time 100, is
    confirmed by that senior at time 500. *)
Lemma confirm_sets_confirmed_witness :
  let user := User.mk 7 "sam" "" "" "Sam" "Roe" "senior" "" in
  let before := Appointment.mk 7 "Checkup" "cancelled" None "" 100 in
  AppointmentViewSet.get_queryset user {[ 1%nat := before ]} !! 1%nat
  = Some before
  ∧ ∃ after,
      AppointmentViewSet.confirm 500 user 1 {[ 1%nat := before ]}
      = (message_response "Appointment confirmed.",
         <[1%nat := after]> {[ 1%nat := before ]})
      ∧ Appointment.status after = "confirmed"
      ∧ Appointment.updated_at after = 500
      ∧ Appointment.senior after = Appointment.senior before
      ∧ Appointment.title after = Appointment.title before
      ∧ Appointment.caretaker after = Appointment.caretaker before
      ∧ Appointment.notes after = Appointment.notes before.
Proof.
  intros user before.
  assert (Hvisible :
    AppointmentViewSet.get_queryset user {[ 1%nat := before ]} !! 1%nat
    = Some before) by (vm_compute; reflexivity).
  split; [exact Hvisible |].
  exact (confirm_sets_confirmed 500 user 1 {[ 1%nat := before ]} before
           Hvisible).
Defined.

(** C7 (as stated, refuted). A cancelled appointment is moved to confirmed
    by [confirm]. *)
Lemma confirm_counterexample : ¬ confirm_only_from_scheduled_or_confirmed.
Proof.
  intros Hclaim.
  pose (user := User.mk 7 "sam" "" "" "Sam" "Roe" "senior" "").
  pose (before := Appointment.mk 7 "Checkup" "cancelled" None "" 100).
  apply (Hclaim 500 user 1%nat {[ 1%nat := before ]} before
                (Appointment.mk 7 "Checkup" "confirmed" None "" 500)).
  - vm_compute. reflexivity.
  - discriminate.
  - discriminate.
  - vm_compute. reflexivity.
  - reflexivity.
Qed.

(** ** Event registration *)

Lemma exists_registrations_of (pk : nat) (user : User.t)
    (registrations : Table EventRegistration.t) :
  ORM.exists_ (EventViewSet.registrations_of pk user registrations) = true
  ↔ registered pk user registrations.
Proof.
  rewrite exists_true. unfold registered, EventViewSet.registrations_of.
  split; intros (rpk & row & H); exists rpk, row.
  - apply lookup_filter_by in H as [Hrow Hcond].
    apply andb_true_iff in Hcond as [He Hu].
    by apply Nat.eqb_eq in He, Hu.
  - destruct H as (Hrow & He & Hu). apply lookup_filter_by. split; [done|].
    apply andb_true_iff. by rewrite !Nat.eqb_eq.
Qed.

Lemma not_registered (pk : nat) (user : User.t)
    (registrations : Table EventRegistration.t) :
  ORM.exists_ (EventViewSet.registrations_of pk user registrations) = false
  ↔ ¬ registered pk user registrations.
Proof.
  rewrite <- exists_registrations_of.
  by destruct (ORM.exists_ _).
Qed.


Lemma register_conflict (now : Z) (user : User.t) (pk : nat)
    (events : Table Event.t) (registrations : Table EventRegistration.t)
    (event : Event.t) :
  events !! pk = Some event →
  registered pk user registrations →
  EventViewSet.register now user pk events registrations
  = (Conflict, (events, registrations)).
Proof.
  intros Hevent Hreg. unfold EventViewSet.register, ORM.get_object.
  rewrite Hevent. apply exists_registrations_of in Hreg. by rewrite Hreg.
Qed.

Lemma register_full (now : Z) (user : User.t) (pk : nat)
    (events : Table Event.t) (registrations : Table EventRegistration.t)
    (event : Event.t) :
  events !! pk = Some event →
  ¬ registered pk user registrations →
  Event.current_registrations event >= Event.max_participants event →
  EventViewSet.register now user pk events registrations
  = (CapacityExceeded, (events, registrations)).
Proof.
  intros Hevent Hnot Hfull. unfold EventViewSet.register, ORM.get_object.
  rewrite Hevent. apply not_registered in Hnot. rewrite Hnot.
  assert ((Event.current_registrations event
           >=? Event.max_participants event) = true) as ->
    by (apply Z.geb_le; lia).
  done.
Qed.

Lemma register_success (now : Z) (user : User.t) (pk : nat)
    (events : Table Event.t) (registrations : Table EventRegistration.t)
    (event : Event.t) :
  events !! pk = Some event →
  ¬ registered pk user registrations →
  Event.current_registrations event < Event.max_participants event →
  EventViewSet.register now user pk events registrations
  = (message_response "Successfully registered for event.",
     (<[pk := Event.with_current_registrations
                (Event.current_registrations event + 1) event]> events,
      <[fresh (dom registrations) :=
          EventRegistration.mk pk (User.id user) now false None ""]>
        registrations)).
Proof.
  intros Hevent Hnot Hroom. unfold EventViewSet.register, ORM.get_object.
  rewrite Hevent. apply not_registered in Hnot. rewrite Hnot.
  assert ((Event.current_registrations event
           >=? Event.max_participants event) = false) as ->
    by (rewrite Z.geb_leb; apply Z.leb_gt; lia).
  done.
Qed.

Lemma registered_dec (pk : nat) (user : User.t)
    (registrations : Table EventRegistration.t) :
  registered pk user registrations ∨ ¬ registered pk user registrations.
Proof.
  destruct (ORM.exists_ (EventViewSet.registrations_of pk user registrations))
    eqn:E.
  - left. by apply exists_registrations_of.
  - right. by apply not_registered.
Qed.



(** The events that [register] stores: the rows it was given, except that
    the event of the request, when it had a free place, has its counter
    incremented. *)
Lemma register_event_lookup (now : Z) (user : User.t) (pk k : nat)
    (events : Table Event.t) (registrations : Table EventRegistration.t)
    (e' : Event.t) :
  (EventViewSet.register now user pk events registrations).2.1 !! k = Some e' →
  events !! k = Some e'
  ∨ ∃ e, k = pk ∧ events !! pk = Some e
         ∧ Event.current_registrations e < Event.max_participants e
         ∧ e' = Event.with_current_registrations
                  (Event.current_registrations e + 1) e.
Proof.
  destruct (events !! pk) as [event|] eqn:Hevent.
  - destruct (registered_dec pk user registrations) as [Hreg | Hnot].
    { rewrite (register_conflict now user pk events registrations event)
        by done.
      by left. }
    destruct (Z_lt_ge_dec (Event.current_registrations event)
                          (Event.max_participants event)) as [Hroom | Hfull].
    + rewrite (register_success now user pk events registrations event)
        by done.
      simpl. destruct (decide (k = pk)) as [-> | Hne].
      * rewrite lookup_insert_eq. intros [= <-]. right. by exists event.
      * rewrite lookup_insert_ne by done. by left.
    + rewrite (register_full now user pk events registrations event)
        by done.
      by left.
  - unfold EventViewSet.register, ORM.get_object. rewrite Hevent. by left.
Qed.

Lemma register_step_within_capacity (now : Z) (user : User.t) (pk k : nat)
    (events : Table Event.t) (registrations : Table EventRegistration.t) :
  event_within_capacity k events →
  event_within_capacity k
    (EventViewSet.register now user pk events registrations).2.1.
Proof.
  intros Hinv e' He'.
  apply register_event_lookup in He' as [He' | (e & -> & He & Hroom & ->)].
  - by apply Hinv.
  - simpl. lia.
Qed.

Lemma register_all_within_capacity (requests : list (Z * User.t * nat))
    (k : nat) (db : Table Event.t * Table EventRegistration.t) :
  event_within_capacity k db.1 →
  event_within_capacity k (register_all requests db).1.
Proof.
  revert db. induction requests as [| [[now user] pk] rest IH]; intros db Hinv.
  - done.
  - simpl. apply IH. by apply register_step_within_capacity.
Qed.

(** C3. For every event: if it holds no more registrations than it has
    places, this is still so after a [register] request (for this event or
    another one, whether it succeeds or fails), and therefore after any
    sequence of [register] requests handled one after the other. *)
Theorem register_keeps_within_capacity (k : nat) (events : Table Event.t)
    (registrations : Table EventRegistration.t) :
  event_within_capacity k events →
  (∀ now user pk,
     event_within_capacity k
       (EventViewSet.register now user pk events registrations).2.1)
  ∧ (∀ requests,
       event_within_capacity k
         (register_all requests (events, registrations)).1).
Proof.
  intros Hinv. split.
  - intros now user pk. by apply register_step_within_capacity.
  - intros requests. by apply register_all_within_capacity.
Qed.

(** An event with one place, and two users who ask for it one after the
    other: the second is refused and the counter stays at 1. *)
Lemma register_keeps_within_capacity_witness :
  let events : Table Event.t := {[ 1%nat := Event.mk 1 "Picnic" 1 0 true ]} in
  let vera := User.mk 5 "vera" "" "" "Vera" "Lind" "volunteer" "" in
  let sam := User.mk 7 "sam" "" "" "Sam" "Roe" "senior" "" in
  let requests := [(1000, vera, 1%nat); (2000, sam, 1%nat)] in
  event_within_capacity 1 (register_all requests (events, ∅)).1
  ∧ (register_all requests (events, ∅)).1 !! 1%nat
    = Some (Event.mk 1 "Picnic" 1 1 true).
Proof.
  intros events vera sam requests.
  assert (Hinv : event_within_capacity 1 events).
  { intros e He. apply lookup_singleton_Some in He as [_ <-]. simpl. lia. }
  split.
  - exact (proj2 (register_keeps_within_capacity 1 events ∅ Hinv) requests).
  - vm_compute. reflexivity.
Defined.

(** ** Notifications *)

Lemma lookup_notifications_of_caller (user : User.t)
    (tbl : Table Notification.t) (pk : nat) (n : Notification.t) :
  NotificationViewSet.get_queryset user tbl !! pk = Some n
  ↔ tbl !! pk = Some n ∧ Notification.user n = User.id user.
Proof.
  unfold NotificationViewSet.get_queryset.
  by rewrite lookup_filter_by, Nat.eqb_eq.
Qed.

Lemma lookup_mark_all_read (now : Z) (user : User.t)
    (tbl : Table Notification.t) (pk : nat) :
  (NotificationViewSet.mark_all_read now user tbl).2 !! pk
  = (λ n, if Nat.eqb (Notification.user n) (User.id user)
          then Notification.with_read_at (Some now)
                 (Notification.with_is_read true n)
          else n) <$> tbl !! pk.
Proof.
  unfold NotificationViewSet.mark_all_read. simpl. rewrite lookup_update.
  destruct (tbl !! pk) as [n|] eqn:Hn; simpl.
  - destruct (Nat.eqb (Notification.user n) (User.id user)) eqn:Hu.
    + apply Nat.eqb_eq in Hu.
      by rewrite (proj2 (lookup_notifications_of_caller user tbl pk n)).
    + assert (NotificationViewSet.get_queryset user tbl !! pk = None) as ->.
      { apply eq_None_not_Some. intros [n' Hn'].
        apply lookup_notifications_of_caller in Hn' as [Hn' Hu'].
        apply Nat.eqb_neq in Hu. congruence. }
      done.
  - assert (NotificationViewSet.get_queryset user tbl !! pk = None) as ->.
    { apply eq_None_not_Some. intros [n' Hn'].
      apply lookup_notifications_of_caller in Hn' as [Hn' _]. congruence. }
    done.
Qed.

(** C6. [mark_all_read] of a caller [user] at time [now]: every
    notification of [user] that was unread is stored with [is_read] true
    and [read_at] equal to [now], its other columns unchanged; every
    notification of another user is stored exactly as it was; no row is
    added or removed. *)
Theorem mark_all_read_frame (now : Z) (user : User.t)
    (tbl : Table Notification.t) :
  let tbl' := (NotificationViewSet.mark_all_read now user tbl).2 in
  (∀ pk n,
     tbl !! pk = Some n →
     Notification.user n = User.id user →
     Notification.is_read n = false →
     ∃ n',
       tbl' !! pk = Some n'
       ∧ Notification.is_read n' = true
       ∧ Notification.read_at n' = Some now
       ∧ Notification.user n' = Notification.user n
       ∧ Notification.title n' = Notification.title n
       ∧ Notification.message n' = Notification.message n
       ∧ Notification.notification_type n' = Notification.notification_type n
       ∧ Notification.link_url n' = Notification.link_url n
       ∧ Notification.created_at n' = Notification.created_at n)
  ∧ (∀ pk n,
       tbl !! pk = Some n →
       Notification.user n ≠ User.id user →
       tbl' !! pk = Some n)
  ∧ dom tbl' = dom tbl.
Proof.
  intros tbl'. subst tbl'. split; [| split].
  - intros pk n Hn Hu _. rewrite lookup_mark_all_read, Hn. simpl.
    apply Nat.eqb_eq in Hu. rewrite Hu. eexists. split; [reflexivity |].
    by repeat split.
  - intros pk n Hn Hu. rewrite lookup_mark_all_read, Hn. simpl.
    apply Nat.eqb_neq in Hu. by rewrite Hu.
  - apply set_eq. intros pk. rewrite !elem_of_dom, lookup_mark_all_read.
    by rewrite fmap_is_Some.
Qed.

(** Two notifications, an unread one of user 7 and one of user 8. *)
Lemma mark_all_read_frame_witness :
  let user := User.mk 7 "sam" "" "" "Sam" "Roe" "senior" "" in
  let mine := Notification.mk 7 "Pills" "Take them" "medication"
                              false None "" 10 in
  let other := Notification.mk 8 "Visit" "At noon" "task" false None "" 20 in
  let tbl : Table Notification.t := <[ 1%nat := mine ]> {[ 2%nat := other ]} in
  let tbl' := (NotificationViewSet.mark_all_read 500 user tbl).2 in
  (∃ n',
     tbl' !! 1%nat = Some n'
     ∧ Notification.is_read n' = true
     ∧ Notification.read_at n' = Some 500
     ∧ Notification.user n' = Notification.user mine
     ∧ Notification.title n' = Notification.title mine
     ∧ Notification.message n' = Notification.message mine
     ∧ Notification.notification_type n' = Notification.notification_type mine
     ∧ Notification.link_url n' = Notification.link_url mine
     ∧ Notification.created_at n' = Notification.created_at mine)
  ∧ tbl' !! 2%nat = Some other.
Proof.
  intros user mine other tbl tbl'.
  destruct (mark_all_read_frame 500 user tbl) as (Hmine & Hother & _).
  split.
  - apply (Hmine 1%nat mine); reflexivity.
  - apply (Hother 2%nat other); [reflexivity | discriminate].
Defined.

Lemma read_at_iff_is_read_stamped (now : Z) (n : Notification.t) :
  read_at_iff_is_read
    (Notification.with_read_at (Some now) (Notification.with_is_read true n)).
Proof. unfold read_at_iff_is_read. simpl. split; [done | by eexists]. Qed.

Lemma create_with_defaults_consistent (now : Z) (user : nat)
    (title message notification_type : string) (link_url : option string)
    (tbl : Table Notification.t) :
  notifications_consistent tbl →
  notifications_consistent
    (handle (CreateWithDefaults now user title message notification_type
                                link_url) tbl).
Proof.
  intros Hinv. unfold handle, NotificationViewSet.create.
  destruct (NotificationSerializer.fields_valid _); [| done].
  simpl. apply map_Forall_insert_2; [| done].
  unfold read_at_iff_is_read. simpl. split; [by intros [] | done].
Qed.

Lemma mark_read_consistent (now : Z) (caller : User.t) (pk : nat)
    (tbl : Table Notification.t) :
  notifications_consistent tbl →
  notifications_consistent (handle (MarkRead now caller pk) tbl).
Proof.
  intros Hinv. unfold handle, NotificationViewSet.mark_read.
  destruct (ORM.get_object pk _) as [n|]; [| done].
  simpl. apply map_Forall_insert_2; [| done].
  apply read_at_iff_is_read_stamped.
Qed.

Lemma mark_all_read_consistent (now : Z) (caller : User.t)
    (tbl : Table Notification.t) :
  notifications_consistent tbl →
  notifications_consistent (handle (MarkAllRead now caller) tbl).
Proof.
  intros Hinv pk n'. unfold handle. rewrite lookup_mark_all_read.
  destruct (tbl !! pk) as [n|] eqn:Hn; [| done]. simpl. intros [= <-].
  destruct (Nat.eqb _ _).
  - apply read_at_iff_is_read_stamped.
  - by apply (Hinv pk n).
Qed.

Lemma handle_consistent (request : notification_request)
    (tbl : Table Notification.t) :
  notifications_consistent tbl →
  notifications_consistent (handle request tbl).
Proof.
  destruct request.
  - apply create_with_defaults_consistent.
  - apply mark_read_consistent.
  - apply mark_all_read_consistent.
Qed.

(** C9 (amended). The invariant that [read_at] is set exactly when
    [is_read] is true is preserved by the creation of a notification with
    the defaults of the model, by [mark_read] and by [mark_all_read], and
    so it holds in every state that a sequence of these requests reaches
    from a table where it holds (the empty table among them). *)
Theorem dedicated_actions_keep_consistent (tbl : Table Notification.t) :
  notifications_consistent tbl →
  (∀ request, notifications_consistent (handle request tbl))
  ∧ (∀ requests, notifications_consistent (handle_all requests tbl)).
Proof.
  intros Hinv. split.
  - intros request. by apply handle_consistent.
  - intros requests. revert tbl Hinv. unfold handle_all.
    induction requests as [| request rest IH]; intros tbl Hinv; [done |].
    simpl. apply IH. by apply handle_consistent.
Qed.

(** From the empty table: a notification is created for user 7, who then
    marks everything read. *)
Lemma dedicated_actions_keep_consistent_witness :
  let sam := User.mk 7 "sam" "" "" "Sam" "Roe" "senior" "" in
  notifications_consistent ∅
  ∧ (∀ request, notifications_consistent (handle request ∅))
  ∧ (∀ requests, notifications_consistent (handle_all requests ∅))
  ∧ handle_all [CreateWithDefaults 10 7 "Pills" "Take them" "medication" None;
                MarkAllRead 500 sam] ∅
    = {[ 0%nat := Notification.mk 7 "Pills" "Take them" "medication"
                                  true (Some 500) "" 10 ]}.
Proof.
  intros sam.
  assert (Hinv : notifications_consistent ∅) by apply map_Forall_empty.
  split; [exact Hinv |].
  split; [exact (proj1 (dedicated_actions_keep_consistent ∅ Hinv)) |].
  split; [exact (proj2 (dedicated_actions_keep_consistent ∅ Hinv)) |].
  apply map_eq. intros k. vm_compute. reflexivity.
Defined.

(** C9 (as stated, refuted). A PATCH with only [is_read = true] on an
    unread notification stores [is_read] true and leaves [read_at] null. *)
Lemma partial_update_counterexample : ¬ partial_update_keeps_consistent.
Proof.
  intros Hclaim.
  pose (sam := User.mk 7 "sam" "" "" "Sam" "Roe" "senior" "").
  pose (unread := Notification.mk 7 "Pills" "Take them" "medication"
                                  false None "" 10).
  pose (patch := NotificationSerializer.mk None None None None
                                           (Some true) None None).
  assert (Hinv : notifications_consistent {[ 1%nat := unread ]}).
  { apply map_Forall_singleton. split; [by intros [] | done]. }
  specialize (Hclaim patch sam 1%nat {[ 1%nat := unread ]} Hinv).
  specialize (Hclaim 1%nat (Notification.with_is_read true unread)).
  destruct Hclaim as [_ Hset]; [vm_compute; reflexivity |].
  destruct (Hset eq_refl) as [t Ht]. discriminate.
Qed.

(** ** User registration *)

(** C8 (amended). Whatever the checks of the fields, the normalization,
    the password hashing and the token keys are: a registration request
    whose [password] and [password2] still differ once the serializer has
    stripped the whitespace around them is answered with status 400 and a
    dictionary of validation errors, and neither the user table nor the
    token table is written; when the checks of the fields pass, the error
    is the password mismatch of [validate]. *)
Theorem register_password_mismatch
    (field_errors : RegisterSerializer.attrs → Table User.t → option JSON)
    (normalize_email normalize_username make_password : string → string)
    (generate_key : nat → string)
    (request_data : RegisterSerializer.attrs)
    (users : Table User.t) (tokens : Table Token.t) :
  strip (RegisterSerializer.password request_data)
  ≠ strip (RegisterSerializer.password2 request_data) →
  ∃ errors,
    RegisterView.create field_errors normalize_email normalize_username
                        make_password generate_key request_data users tokens
    = (Response.mk errors HTTP_400_BAD_REQUEST, (users, tokens))
    ∧ (field_errors (RegisterSerializer.to_internal_value request_data) users
       = None →
       errors = JObj [("password", JList [JStr "Passwords don't match."])]).
Proof.
  intros Hdiff. unfold RegisterView.create, RegisterView.is_valid.
  destruct (field_errors _ users) as [errors|].
  - exists errors. by split.
  - unfold RegisterSerializer.validate.
    cbn [RegisterSerializer.to_internal_value RegisterSerializer.password
         RegisterSerializer.password2].
    apply String.eqb_neq in Hdiff. rewrite Hdiff. cbn [negb].
    eexists. by split.
Qed.

(** A request with two different passwords that passes the checks of the
    fields. *)
Lemma register_password_mismatch_witness :
  let request_data :=
    RegisterSerializer.mk "sam" "sam@example.org" "correct horse"
                          "battery staple" "Sam" "Roe" "senior" "" in
  strip (RegisterSerializer.password request_data)
  ≠ strip (RegisterSerializer.password2 request_data)
  ∧ RegisterView.create (λ _ _, None) (λ e, e) (λ u, u) (λ p, "#" ++ p)
                        (λ _, "k") request_data ∅ ∅
    = (Response.mk (JObj [("password", JList [JStr "Passwords don't match."])])
                   HTTP_400_BAD_REQUEST,
       (∅, ∅)).
Proof.
  intros request_data.
  assert (Hdiff : strip (RegisterSerializer.password request_data)
                  ≠ strip (RegisterSerializer.password2 request_data))
    by (vm_compute; discriminate).
  split; [exact Hdiff |].
  destruct (register_password_mismatch (λ _ _, None) (λ e, e) (λ u, u)
              (λ p, "#" ++ p) (λ _, "k") request_data ∅ ∅ Hdiff)
    as (errors & Hcreate & Herrors).
  rewrite Hcreate, (Herrors eq_refl). reflexivity.
Defined.

(** C8 (as stated, refuted). The submitted [password] has a space after
    its last letter and the submitted [password2] has none, so the two
    differ; the serializer strips both, [validate] receives equal
    passwords, and the request is answered 201 and creates the user. *)
Lemma register_password_mismatch_counterexample : ¬ mismatch_is_refused.
Proof.
  intros Hclaim.
  destruct (Hclaim (λ _ _, None) (λ e, e) (λ u, u) (λ p, "#" ++ p)
              (λ _, "k")
              (RegisterSerializer.mk "sam" "sam@example.org" "correct horse "
                                     "correct horse" "Sam" "Roe" "senior" "")
              ∅ ∅) as [errors Hcreate]; [discriminate |].
  vm_compute in Hcreate. discriminate.
Qed.

(** ** Serialized events *)

(** C10. The [spaces_available] member of a serialized event is the
    event's [max_participants], whatever its [current_registrations]; so
    when [current_registrations] is positive it is not the remaining
    capacity [max_participants - current_registrations]. *)
Theorem spaces_available_is_max_participants (ngo_name : string) (pk : nat)
    (e : Event.t) :
  json_get "spaces_available" (EventSerializer.to_representation ngo_name pk e)
  = Some (JInt (Event.max_participants e))
  ∧ (0 < Event.current_registrations e →
     json_get "spaces_available"
              (EventSerializer.to_representation ngo_name pk e)
     ≠ Some (JInt (Event.max_participants e
                   - Event.current_registrations e))).
Proof.
  split; [reflexivity |].
  intros Hpos. simpl. intros [= Heq]. lia.
Qed.

(** An event with 50 places, 20 of them taken: 50 is reported, not 30. *)
Lemma spaces_available_is_max_participants_witness :
  let e := Event.mk 1 "Picnic" 50 20 true in
  json_get "spaces_available" (EventSerializer.to_representation "Helpers" 3 e)
  = Some (JInt 50)
  ∧ json_get "spaces_available"
             (EventSerializer.to_representation "Helpers" 3 e)
    ≠ Some (JInt 30).
Proof.
  intros e.
  destruct (spaces_available_is_max_participants "Helpers" 3 e) as [Hmax Hrem].
  split; [exact Hmax |]. apply Hrem. simpl. lia.
Defined.

(** ** Emergency alerts *)

Lemma resolve_stamps (now1 now2 : Z) (notes : option (option string))
    (user : User.t) (pk : nat) (alerts : Table EmergencyAlert.t)
    (alert : EmergencyAlert.t) :
  alerts !! pk = Some alert →
  (EmergencyAlertViewSet.resolve now1 now2 notes user pk alerts).1
  = message_response "Alert resolved successfully." →
  ∃ after,
    EmergencyAlertViewSet.resolve now1 now2 notes user pk alerts
    = (message_response "Alert resolved successfully.",
       <[pk := after]> alerts)
    ∧ EmergencyAlert.is_resolved after = true
    ∧ EmergencyAlert.resolved_at after = Some now1
    ∧ EmergencyAlert.resolved_by after = Some (User.id user)
    ∧ EmergencyAlert.alert_time after = EmergencyAlert.alert_time alert
    ∧ EmergencyAlert.response_time after
      = Some (now2 - EmergencyAlert.alert_time alert).
Proof.
  intros Halert. unfold EmergencyAlertViewSet.resolve, ORM.get_object.
  rewrite Halert.
  destruct (default (Some "") notes) as [resolution_notes|]; [| done].
  intros _. eexists. split; [reflexivity |]. by repeat split.
Qed.

(** [resolve] answers 200 for an alert that exists, unless the notes of
    the request are null; then it fails and writes nothing. *)
Lemma resolve_response (now1 now2 : Z) (notes : option (option string))
    (user : User.t) (pk : nat) (alerts : Table EmergencyAlert.t) :
  is_Some (alerts !! pk) →
  (notes ≠ Some None →
   (EmergencyAlertViewSet.resolve now1 now2 notes user pk alerts).1
   = message_response "Alert resolved successfully.")
  ∧ (notes = Some None →
     EmergencyAlertViewSet.resolve now1 now2 notes user pk alerts
     = (server_error_response, alerts)).
Proof.
  intros [alert Halert]. unfold EmergencyAlertViewSet.resolve, ORM.get_object.
  rewrite Halert. split.
  - by destruct notes as [[text|]|].
  - by intros ->.
Qed.

(** X19. The [response_time] that [resolve] stores when it answers 200 is
    [resolved_at - alert_time] exactly when the two readings of the clock
    are equal. *)
Lemma resolve_response_time_exact_iff (now1 now2 : Z)
    (notes : option (option string)) (user : User.t) (pk : nat)
    (alerts : Table EmergencyAlert.t) (alert after : EmergencyAlert.t) :
  alerts !! pk = Some alert →
  (EmergencyAlertViewSet.resolve now1 now2 notes user pk alerts).1
  = message_response "Alert resolved successfully." →
  (EmergencyAlertViewSet.resolve now1 now2 notes user pk alerts).2 !! pk
  = Some after →
  EmergencyAlert.response_time after
  = (λ resolved_at, resolved_at - EmergencyAlert.alert_time after)
      <$> EmergencyAlert.resolved_at after
  ↔ now1 = now2.
Proof.
  intros Halert Hok.
  destruct (resolve_stamps now1 now2 notes user pk alerts alert Halert Hok)
    as (after' & -> & _ & Hat & _ & Htime & Hresp).
  simpl. rewrite lookup_insert_eq. intros [= <-].
  rewrite Hresp, Hat, Htime. simpl. split; [intros [= H]; lia | by intros ->].
Qed.

(** C5 (the code at a failing input). An alert raised at time 0 is
    resolved; the clock reads 10 s when [resolved_at] is stamped and one
    microsecond more when [response_time] is computed. The stored
    [response_time] is 10.000001 s, which is not [resolved_at - alert_time]
    (10 s). *)
Theorem resolve_reads_the_clock_twice :
  let resolver := User.mk 2 "carol" "" "" "Carol" "Diaz" "caretaker" "" in
  let alert := EmergencyAlert.mk 7 0 "sos" false None None None "" in
  ∃ after,
    (EmergencyAlertViewSet.resolve 10000000 10000001 None resolver 1
                                   {[ 1%nat := alert ]}).2 !! 1%nat
    = Some after
    ∧ EmergencyAlert.is_resolved after = true
    ∧ EmergencyAlert.alert_time after = 0
    ∧ EmergencyAlert.resolved_at after = Some 10000000
    ∧ EmergencyAlert.response_time after = Some 10000001
    ∧ EmergencyAlert.response_time after
      ≠ (λ resolved_at, resolved_at - EmergencyAlert.alert_time after)
          <$> EmergencyAlert.resolved_at after.
Proof.
  intros resolver alert. eexists. split; [vm_compute; reflexivity |].
  by repeat split.
Qed.

(** ** Completion of volunteer tasks *)

(** What [complete] assigns to a task that was started at [started]. *)
Lemma completed_task_fields (now started : Z) (completion_notes : string)
    (task : VolunteerTask.t) :
  VolunteerTask.actual_start_time task = Some started →
  let task' := VolunteerTaskViewSet.completed_task now completion_notes task in
  VolunteerTask.status task' = "completed"
  ∧ VolunteerTask.actual_start_time task' = Some started
  ∧ VolunteerTask.actual_end_time task' = Some now
  ∧ VolunteerTask.hours_logged task'
    = (total_seconds (now - started) / inject_Z 3600)%Q
  ∧ VolunteerTask.volunteer task' = VolunteerTask.volunteer task.
Proof.
  intros Hstart. unfold VolunteerTaskViewSet.completed_task. simpl.
  rewrite Hstart. by repeat split.
Qed.

Lemma completed_task_volunteer (now : Z) (completion_notes : string)
    (task : VolunteerTask.t) :
  VolunteerTask.volunteer
    (VolunteerTaskViewSet.completed_task now completion_notes task)
  = VolunteerTask.volunteer task.
Proof.
  unfold VolunteerTaskViewSet.completed_task. simpl.
  by destruct (VolunteerTask.actual_start_time task).
Qed.

Lemma hours_of_5400_seconds (started : Z) :
  (total_seconds (started + 5400 * 1000000 - started) / inject_Z 3600
   == 3 # 2)%Q.
Proof.
  replace (started + 5400 * 1000000 - started) with 5400000000 by lia.
  reflexivity.
Qed.


(** What a [complete] that answers 200 has written. *)
Lemma complete_succeeded (now : Z) (notes : option (option string))
    (user : User.t) (pk : nat) (tasks : Table VolunteerTask.t)
    (profiles : Table VolunteerProfile.t) (task : VolunteerTask.t) :
  VolunteerTaskViewSet.get_queryset user tasks !! pk = Some task →
  (VolunteerTaskViewSet.complete now notes user pk tasks profiles).1
  = message_response "Task completed successfully." →
  ∃ completion_notes,
    default (Some "") notes = Some completion_notes
    ∧ (VolunteerTaskViewSet.complete now notes user pk tasks profiles).2.1
      = ORM.save pk
          (VolunteerTaskViewSet.completed_task now completion_notes task)
          tasks
    ∧ ∀ vpk volunteer,
        ORM.get (λ p, Nat.eqb (VolunteerProfile.user p)
                              (VolunteerTask.volunteer task)) profiles
        = ORM.Found vpk volunteer →
        (VolunteerTaskViewSet.complete now notes user pk tasks profiles).2.2
        = ORM.save vpk
            (VolunteerTaskViewSet.updated_stats
               (VolunteerTaskViewSet.completed_task now completion_notes task)
               volunteer)
            profiles.
Proof.
  intros Htask. unfold VolunteerTaskViewSet.complete, ORM.get_object.
  rewrite Htask.
  destruct (default (Some "") notes) as [completion_notes|]; [| done].
  destruct (ORM.DecimalField_5_2_overflows _); [done |].
  rewrite completed_task_volunteer.
  destruct (ORM.get _ profiles) as [vpk0 volunteer0 | |]; [| | done].
  - destruct (_ || _); [done |]. intros _.
    exists completion_notes. split; [done |]. split; [done |].
    by intros vpk volunteer [= <- <-].
  - intros _. exists completion_notes. split; [done |]. split; [done |].
    by intros vpk volunteer.
Qed.

(** An integer column drops the fraction: hours below one add nothing. *)
Lemma total_hours_ignores_fraction (total : Z) (hours : Q) :
  0 <= total →
  (0 <= hours)%Q → (hours < 1)%Q →
  ORM.IntegerField_get_prep_value (inject_Z total + hours)%Q = total.
Proof.
  destruct hours as [n d]. unfold Qle, Qlt, ORM.IntegerField_get_prep_value.
  simpl. intros Htotal Hn Hd.
  rewrite Z.quot_div_nonneg by nia.
  rewrite Pos2Z.inj_mul, Z.mul_1_l, Z.mul_1_r in *.
  rewrite Z.div_add_l by lia. rewrite Z.div_small by lia. lia.
Qed.

(** C4 (the code at a failing input). Volunteer 5 starts a task at time 0
    and completes it 5400 s later; the profile of the volunteer has no
    hours and no completed task yet. The task is stored as completed, with
    [actual_end_time] 5400 s and [hours_logged] 1.50, and the profile with
    [tasks_completed] 1; but its [total_hours] is 1, which is not the
    former total plus [hours_logged]. *)
Theorem complete_truncates_total_hours :
  let user := User.mk 5 "vera" "" "" "Vera" "Lind" "volunteer" "" in
  let task := VolunteerTask.mk 7 5 1 "Shopping" "accepted" None None "" 0 in
  let profile := VolunteerProfile.mk 5 1 "V-5" 0 0 0 in
  let started := (VolunteerTaskViewSet.start 0 user 1 {[ 1%nat := task ]}).2 in
  let result :=
    VolunteerTaskViewSet.complete 5400000000 None user 1
      started {[ 1%nat := profile ]} in
  ∃ task' profile',
    result.2.1 !! 1%nat = Some task'
    ∧ result.2.2 !! 1%nat = Some profile'
    ∧ VolunteerTask.status task' = "completed"
    ∧ VolunteerTask.actual_start_time task' = Some 0
    ∧ VolunteerTask.actual_end_time task' = Some 5400000000
    ∧ (VolunteerTask.hours_logged task' == 3 # 2)%Q
    ∧ VolunteerProfile.tasks_completed profile' = 1
    ∧ VolunteerProfile.total_hours profile' = 1
    ∧ ¬ (inject_Z (VolunteerProfile.total_hours profile')
         == inject_Z (VolunteerProfile.total_hours profile)
            + VolunteerTask.hours_logged task')%Q.
Proof.
  intros user task profile started result.
  eexists _, _. split; [vm_compute; reflexivity |].
  split; [vm_compute; reflexivity |].
  repeat split; try reflexivity. simpl. intros H. vm_compute in H. lia.
Qed.

(** ** Interleaved registrations *)

(** A request that runs alone through its four operations is
    [EventViewSet.register]. *)
Lemma run_alone_is_register (now : Z) (user : User.t) (pk : nat)
    (events : Table Event.t) (registrations : Table EventRegistration.t) :
  let s := Interleaving.run [0; 0; 0; 0]%nat
             (Interleaving.mk events registrations
                              [Interleaving.Received now user pk]) in
  let result := EventViewSet.register now user pk events registrations in
  Interleaving.requests s = [Interleaving.Answered result.1]
  ∧ (Interleaving.events s, Interleaving.registrations s) = result.2.
Proof.
  unfold EventViewSet.register, Interleaving.run, Interleaving.step. simpl.
  destruct (ORM.get_object pk events) as [event|]; [| done]. simpl.
  destruct (ORM.exists_ _) eqn:Hreg; [done |]. simpl.
  destruct (_ >=? _); [done |]. simpl. by rewrite Hreg.
Qed.

Lemma advance_within_capacity (request : Interleaving.in_flight)
    (events : Table Event.t) (registrations : Table EventRegistration.t) :
  within_capacity events →
  Interleaving.checked_has_room request →
  within_capacity (Interleaving.advance request events registrations).2.1
  ∧ Interleaving.checked_has_room
      (Interleaving.advance request events registrations).1.
Proof.
  intros Hinv Hroom. destruct request as [now user pk | now user pk event
    | now user pk event | pk event | response]; simpl.
  - by destruct (ORM.get_object pk events).
  - destruct (ORM.exists_ _); [done |].
    destruct (_ >=? _) eqn:Hfull; [done |]. simpl. split; [done |].
    rewrite Z.geb_leb in Hfull. apply Z.leb_gt in Hfull. lia.
  - by destruct (ORM.exists_ _).
  - split; [| done]. apply map_Forall_insert_2; [| done].
    simpl in *. lia.
  - done.
Qed.

Lemma step_within_capacity (i : nat) (s : Interleaving.state) :
  within_capacity (Interleaving.events s) →
  Forall Interleaving.checked_has_room (Interleaving.requests s) →
  within_capacity (Interleaving.events (Interleaving.step i s))
  ∧ Forall Interleaving.checked_has_room
           (Interleaving.requests (Interleaving.step i s)).
Proof.
  intros Hinv Hroom. unfold Interleaving.step.
  destruct (Interleaving.requests s !! i) as [request|] eqn:Hi; [| done].
  pose proof (advance_within_capacity request (Interleaving.events s)
                (Interleaving.registrations s) Hinv
                (Forall_lookup_1 _ _ _ _ Hroom Hi)) as [Hinv' Hroom'].
  destruct (Interleaving.advance _ _ _) as [request' [events' regs']].
  simpl in *. split; [done |]. by apply Forall_insert.
Qed.

(** X1. Whatever the interleaving of the database operations of any
    number of [register] requests, no event's counter exceeds its places:
    a request writes the counter it read plus one, and it read a counter
    below the places. *)
Lemma interleaved_register_within_capacity (schedule : list nat)
    (s : Interleaving.state) :
  within_capacity (Interleaving.events s) →
  Forall Interleaving.checked_has_room (Interleaving.requests s) →
  within_capacity (Interleaving.events (Interleaving.run schedule s)).
Proof.
  revert s. unfold Interleaving.run.
  induction schedule as [| i rest IH]; intros s Hinv Hroom; [done |].
  simpl. destruct (step_within_capacity i s Hinv Hroom). by apply IH.
Qed.

(** Two users ask at once for the only place of an event: both get it.
    The counter says 1, within capacity, while the event has two
    registrations. *)
Lemma interleaved_register_overbooks :
  let vera := User.mk 5 "vera" "" "" "Vera" "Lind" "volunteer" "" in
  let sam := User.mk 7 "sam" "" "" "Sam" "Roe" "senior" "" in
  let s := Interleaving.run [0; 1; 0; 1; 0; 1; 0; 1]%nat
             (Interleaving.mk {[ 1%nat := Event.mk 1 "Picnic" 1 0 true ]} ∅
                [Interleaving.Received 1000 vera 1;
                 Interleaving.Received 1001 sam 1]) in
  Interleaving.requests s
  = [Interleaving.Answered
       (message_response "Successfully registered for event.");
     Interleaving.Answered
       (message_response "Successfully registered for event.")]
  ∧ Interleaving.events s !! 1%nat = Some (Event.mk 1 "Picnic" 1 1 true)
  ∧ size (Interleaving.registrations s) = 2%nat.
Proof. vm_compute. by repeat split. Qed.


(** * Further properties of the views *)

(** ** More on the object-relational layer *)

Section ORMGet.
Context {Row : Type}.
Implicit Types (tbl : Table Row) (cond : Row → bool).

Lemma get_found_iff cond tbl pk obj :
  ORM.get cond tbl = ORM.Found pk obj
  ↔ ORM.filter_by cond tbl = {[ pk := obj ]}.
Proof.
  unfold ORM.get. split.
  - intros H.
    destruct (map_to_list (ORM.filter_by cond tbl)) as [|[k r] [|? ?]] eqn:E;
      try discriminate.
    injection H as -> ->.
    rewrite <- (list_to_map_to_list (ORM.filter_by cond tbl)), E.
    simpl. by rewrite insert_empty.
  - intros ->. by rewrite map_to_list_singleton.
Qed.

Lemma get_does_not_exist_iff cond tbl :
  ORM.get cond tbl = ORM.DoesNotExist ↔ ORM.filter_by cond tbl = ∅.
Proof.
  unfold ORM.get. rewrite <- map_to_list_empty_iff.
  destruct (map_to_list (ORM.filter_by cond tbl)) as [|[k r] [|? ?]];
    split; intros; done.
Qed.

Lemma filter_by_insert_true cond tbl pk obj :
  cond obj = true →
  ORM.filter_by cond (<[pk := obj]> tbl) = <[pk := obj]> (ORM.filter_by cond tbl).
Proof. intros H. unfold ORM.filter_by. by rewrite map_filter_insert_True. Qed.

Lemma filter_by_insert_false cond tbl pk obj :
  cond obj = false →
  ORM.filter_by cond (<[pk := obj]> tbl) = delete pk (ORM.filter_by cond tbl).
Proof.
  intros H. unfold ORM.filter_by.
  rewrite map_filter_insert_False by (simpl; congruence).
  apply map_filter_delete.
Qed.

(** Saving a changed copy of the only row that a [get] finds, when the
    copy still satisfies the condition, makes [get] find the copy. *)
Lemma get_save_found cond tbl pk obj obj' :
  ORM.get cond tbl = ORM.Found pk obj →
  cond obj' = true →
  ORM.get cond (ORM.save pk obj' tbl) = ORM.Found pk obj'.
Proof.
  intros Hget Hcond. apply get_found_iff in Hget. apply get_found_iff.
  unfold ORM.save. rewrite filter_by_insert_true by done.
  rewrite Hget. apply insert_singleton_eq.
Qed.

Lemma lookup_update_selected (assign : Row → Row) (selected : gset nat)
    tbl pk :
  ORM.update assign (ORM.filter_pk selected tbl) tbl !! pk
  = if decide (pk ∈ selected) then assign <$> tbl !! pk else tbl !! pk.
Proof.
  rewrite lookup_update. unfold ORM.filter_pk.
  destruct (decide (pk ∈ selected)) as [Hin | Hout].
  - destruct (tbl !! pk) as [row|] eqn:Hrow.
    + by rewrite (map_lookup_filter_Some_2 _ _ _ row).
    + rewrite (proj2 (map_lookup_filter_None _ _ _)); [done | by left].
  - rewrite (proj2 (map_lookup_filter_None _ _ _)); [done |].
    right. by intros row _.
Qed.
End ORMGet.

(** ** Registrations and the counter of an event *)

Lemma registrations_for_insert (pk k rpk : nat) (row : EventRegistration.t)
    (registrations : Table EventRegistration.t) :
  registrations !! rpk = None →
  EventRegistration.event row = pk →
  ORM.count (registrations_for k (<[rpk := row]> registrations))
  = if decide (k = pk) then S (ORM.count (registrations_for k registrations))
    else ORM.count (registrations_for k registrations).
Proof.
  intros Hfresh Hevent. unfold registrations_for, ORM.count.
  destruct (decide (k = pk)) as [-> | Hne].
  - rewrite filter_by_insert_true by (by apply Nat.eqb_eq).
    apply map_size_insert_None, eq_None_not_Some. intros [r Hr].
    apply lookup_filter_by in Hr as [Hr _]. congruence.
  - rewrite filter_by_insert_false by (apply Nat.eqb_neq; congruence).
    apply map_size_delete_None, eq_None_not_Some. intros [r Hr].
    apply lookup_filter_by in Hr as [Hr _]. congruence.
Qed.

Lemma register_step_in_sync (now : Z) (user : User.t) (pk : nat)
    (events : Table Event.t) (registrations : Table EventRegistration.t) :
  counter_in_sync events registrations →
  counter_in_sync
    (EventViewSet.register now user pk events registrations).2.1
    (EventViewSet.register now user pk events registrations).2.2.
Proof.
  intros Hsync.
  destruct (events !! pk) as [event|] eqn:Hevent.
  - destruct (registered_dec pk user registrations) as [Hreg | Hnot].
    { by rewrite (register_conflict now user pk events registrations event). }
    destruct (Z_lt_ge_dec (Event.current_registrations event)
                          (Event.max_participants event)) as [Hroom | Hfull].
    + rewrite (register_success now user pk events registrations event)
        by done.
      simpl. intros k e He.
      rewrite (registrations_for_insert pk k)
        by (done || apply lookup_create_fresh).
      destruct (decide (k = pk)) as [-> | Hne].
      * rewrite lookup_insert_eq in He. injection He as <-. simpl.
        rewrite (Hsync pk event Hevent). lia.
      * rewrite lookup_insert_ne in He by done. by apply Hsync.
    + by rewrite (register_full now user pk events registrations event).
  - unfold EventViewSet.register, ORM.get_object. by rewrite Hevent.
Qed.

Lemma register_all_in_sync (requests : list (Z * User.t * nat))
    (db : Table Event.t * Table EventRegistration.t) :
  counter_in_sync db.1 db.2 →
  within_capacity db.1 →
  counter_in_sync (register_all requests db).1 (register_all requests db).2
  ∧ within_capacity (register_all requests db).1.
Proof.
  revert db.
  induction requests as [| [[now user] pk] rest IH]; intros db Hsync Hcap.
  - done.
  - simpl. apply IH.
    + by apply register_step_in_sync.
    + intros k e He.
      apply (register_step_within_capacity now user pk k db.1 db.2); [| done].
      intros e' He'. by apply (Hcap k e').
Qed.

(** X2. When requests are handled one after the other, the counter of
    every event stays equal to the number of its registration rows; if in
    addition no counter exceeds the places of its event, no event ever has
    more registration rows than places. *)
Theorem register_keeps_counter_in_sync (events : Table Event.t)
    (registrations : Table EventRegistration.t)
    (requests : list (Z * User.t * nat)) :
  counter_in_sync events registrations →
  within_capacity events →
  let db := register_all requests (events, registrations) in
  counter_in_sync db.1 db.2
  ∧ ∀ pk e, db.1 !! pk = Some e →
            Z.of_nat (ORM.count (registrations_for pk db.2))
            <= Event.max_participants e.
Proof.
  intros Hsync Hcap db. subst db.
  pose proof (register_all_in_sync requests (events, registrations)
                Hsync Hcap) as Hboth.
  destruct Hboth as [Hsync' Hcap']. split; [done |].
  intros pk e He. rewrite <- (Hsync' pk e He). by apply (Hcap' pk e).
Qed.

(** An event with one place, and two users who ask for it one after the
    other: one registration row, and a counter of 1. *)
Lemma register_keeps_counter_in_sync_witness :
  let events : Table Event.t := {[ 1%nat := Event.mk 1 "Picnic" 1 0 true ]} in
  let vera := User.mk 5 "vera" "" "" "Vera" "Lind" "volunteer" "" in
  let sam := User.mk 7 "sam" "" "" "Sam" "Roe" "senior" "" in
  let db := register_all [(1000, vera, 1%nat); (2000, sam, 1%nat)]
                         (events, ∅) in
  counter_in_sync db.1 db.2
  ∧ ∀ pk e, db.1 !! pk = Some e →
            Z.of_nat (ORM.count (registrations_for pk db.2))
            <= Event.max_participants e.
Proof.
  intros events vera sam.
  apply (register_keeps_counter_in_sync events ∅).
  - intros pk e He. apply lookup_singleton_Some in He as [<- <-].
    vm_compute. reflexivity.
  - apply map_Forall_singleton. simpl. lia.
Defined.

(** Two requests that have only been received, for the one place of an
    event. *)
Lemma interleaved_register_within_capacity_witness :
  let vera := User.mk 5 "vera" "" "" "Vera" "Lind" "volunteer" "" in
  let sam := User.mk 7 "sam" "" "" "Sam" "Roe" "senior" "" in
  within_capacity
    (Interleaving.events
       (Interleaving.run [0; 1; 0; 1; 0; 1; 0; 1]%nat
          (Interleaving.mk {[ 1%nat := Event.mk 1 "Picnic" 1 0 true ]} ∅
             [Interleaving.Received 1000 vera 1;
              Interleaving.Received 1001 sam 1]))).
Proof.
  intros vera sam. apply interleaved_register_within_capacity.
  - apply map_Forall_singleton. simpl. lia.
  - repeat constructor.
Defined.

(** X3. Interleaving does not keep the counter equal to the number of
    registration rows: there are a state where they are equal, with
    requests that have only been received, and a schedule after which an
    event has more registration rows than its counter says. *)
Theorem interleaved_register_loses_sync :
  ¬ ∀ schedule s,
      counter_in_sync (Interleaving.events s) (Interleaving.registrations s) →
      Forall (λ r, ∃ now user pk, r = Interleaving.Received now user pk)
             (Interleaving.requests s) →
      counter_in_sync (Interleaving.events (Interleaving.run schedule s))
                      (Interleaving.registrations
                         (Interleaving.run schedule s)).
Proof.
  intros Hclaim.
  pose (vera := User.mk 5 "vera" "" "" "Vera" "Lind" "volunteer" "").
  pose (sam := User.mk 7 "sam" "" "" "Sam" "Roe" "senior" "").
  specialize (Hclaim [0; 1; 0; 1; 0; 1; 0; 1]%nat
    (Interleaving.mk {[ 1%nat := Event.mk 1 "Picnic" 1 0 true ]} ∅
       [Interleaving.Received 1000 vera 1; Interleaving.Received 1001 sam 1])).
  assert (Hbad : 1 = 2); [| lia].
  apply (Hclaim
           ltac:(intros pk e He; simpl in He;
                 apply lookup_singleton_Some in He as [<- <-];
                 vm_compute; reflexivity)
           ltac:(repeat constructor; eauto)
           1%nat (Event.mk 1 "Picnic" 1 1 true)).
  vm_compute. reflexivity.
Qed.


(** ** Unread notifications *)

Lemma lookup_unread (user : User.t) (tbl : Table Notification.t)
    (pk : nat) (n : Notification.t) :
  NotificationViewSet.unread user tbl !! pk = Some n
  ↔ tbl !! pk = Some n
    ∧ Notification.user n = User.id user
    ∧ Notification.is_read n = false.
Proof.
  unfold NotificationViewSet.unread.
  rewrite lookup_filter_by, lookup_notifications_of_caller, negb_true_iff.
  split; [by intros [[? ?] ?] | by intros (? & ? & ?)].
Qed.

(** X4. After [mark_all_read] the caller has no unread notification, and
    the unread notifications of every other user are the same as before. *)
Theorem unread_after_mark_all_read (now : Z) (user : User.t)
    (tbl : Table Notification.t) :
  let tbl' := (NotificationViewSet.mark_all_read now user tbl).2 in
  NotificationViewSet.unread user tbl' = ∅
  ∧ ∀ other, User.id other ≠ User.id user →
             NotificationViewSet.unread other tbl'
             = NotificationViewSet.unread other tbl.
Proof.
  intros tbl'. subst tbl'. split.
  - apply map_empty. intros pk. apply eq_None_not_Some. intros [n Hn].
    apply lookup_unread in Hn as (Hn & Hu & Hread).
    rewrite lookup_mark_all_read in Hn.
    destruct (tbl !! pk) as [n0|]; [| done]. simpl in Hn.
    injection Hn as <-.
    destruct (Nat.eqb (Notification.user n0) (User.id user)) eqn:E.
    + done.
    + apply Nat.eqb_neq in E. done.
  - intros other Hother. apply map_eq. intros pk. apply option_eq. intros n.
    rewrite !lookup_unread, lookup_mark_all_read.
    destruct (tbl !! pk) as [n0|]; simpl; [| done].
    destruct (Nat.eqb (Notification.user n0) (User.id user)) eqn:E.
    + apply Nat.eqb_eq in E. split.
      * intros ([= <-] & Hu & _). simpl in Hu. congruence.
      * intros ([= <-] & Hu & _). congruence.
    + done.
Qed.

(** Users 7 and 8 have one unread notification each; user 7 marks all
    read. *)
Lemma unread_after_mark_all_read_witness :
  let sam := User.mk 7 "sam" "" "" "Sam" "Roe" "senior" "" in
  let ruth := User.mk 8 "ruth" "" "" "Ruth" "Oak" "senior" "" in
  let other := Notification.mk 8 "Visit" "At noon" "task" false None "" 20 in
  let tbl : Table Notification.t :=
    <[ 1%nat := Notification.mk 7 "Pills" "Take them" "medication"
                                false None "" 10 ]> {[ 2%nat := other ]} in
  let tbl' := (NotificationViewSet.mark_all_read 500 sam tbl).2 in
  NotificationViewSet.unread sam tbl' = ∅
  ∧ NotificationViewSet.unread ruth tbl' = NotificationViewSet.unread ruth tbl
  ∧ NotificationViewSet.unread ruth tbl !! 2%nat = Some other.
Proof.
  intros sam ruth other tbl tbl'.
  destruct (unread_after_mark_all_read 500 sam tbl) as [Hmine Hothers].
  split; [exact Hmine |]. split.
  - apply (Hothers ruth). discriminate.
  - reflexivity.
Defined.

(** X5. [mark_read] writes only a notification of the caller: for a
    primary key that is absent or belongs to another user it answers 404
    and writes nothing, and in every case the notifications of other users
    stay as they are. *)
Theorem mark_read_only_own (now : Z) (user : User.t) (pk : nat)
    (tbl : Table Notification.t) :
  ((∀ n, tbl !! pk = Some n → Notification.user n ≠ User.id user) →
   NotificationViewSet.mark_read now user pk tbl = (not_found_response, tbl))
  ∧ ∀ k n, tbl !! k = Some n →
           Notification.user n ≠ User.id user →
           (NotificationViewSet.mark_read now user pk tbl).2 !! k = Some n.
Proof.
  unfold NotificationViewSet.mark_read, ORM.get_object. split.
  - intros Hforeign.
    destruct (NotificationViewSet.get_queryset user tbl !! pk) as [n|] eqn:Hn;
      [| done].
    apply lookup_notifications_of_caller in Hn as [Hn Hu].
    by destruct (Hforeign n Hn).
  - intros k n Hk Hforeign.
    destruct (NotificationViewSet.get_queryset user tbl !! pk) as [m|] eqn:Hm;
      [| done].
    apply lookup_notifications_of_caller in Hm as [Hm Hu]. simpl.
    unfold ORM.save. rewrite lookup_insert_ne; [done |].
    intros ->. congruence.
Qed.

(** User 7 tries to mark a notification of user 8. *)
Lemma mark_read_only_own_witness :
  let sam := User.mk 7 "sam" "" "" "Sam" "Roe" "senior" "" in
  let other := Notification.mk 8 "Visit" "At noon" "task" false None "" 20 in
  NotificationViewSet.mark_read 500 sam 2 {[ 2%nat := other ]}
  = (not_found_response, {[ 2%nat := other ]}).
Proof.
  intros sam other.
  apply (proj1 (mark_read_only_own 500 sam 2 {[ 2%nat := other ]})).
  intros n Hn. apply lookup_singleton_Some in Hn as [_ <-]. discriminate.
Defined.

(** ** The notification actions of the admin site *)

Lemma lookup_admin_mark_as_read (now : Z) (selected : gset nat)
    (tbl : Table Notification.t) (pk : nat) :
  (NotificationAdmin.mark_as_read now selected tbl).2 !! pk
  = if decide (pk ∈ selected)
    then (λ n, Notification.with_read_at (Some now)
                 (Notification.with_is_read true n)) <$> tbl !! pk
    else tbl !! pk.
Proof. apply lookup_update_selected. Qed.

Lemma lookup_admin_mark_as_unread (selected : gset nat)
    (tbl : Table Notification.t) (pk : nat) :
  (NotificationAdmin.mark_as_unread selected tbl).2 !! pk
  = if decide (pk ∈ selected)
    then (λ n, Notification.with_read_at None
                 (Notification.with_is_read false n)) <$> tbl !! pk
    else tbl !! pk.
Proof. apply lookup_update_selected. Qed.

(** X6. The admin actions [mark_as_read] and [mark_as_unread] keep the
    invariant that [read_at] is set exactly when [is_read] is true, for
    every selection of rows. *)
Theorem admin_actions_keep_consistent (now : Z) (selected : gset nat)
    (tbl : Table Notification.t) :
  notifications_consistent tbl →
  notifications_consistent (NotificationAdmin.mark_as_read now selected tbl).2
  ∧ notifications_consistent (NotificationAdmin.mark_as_unread selected tbl).2.
Proof.
  intros Hinv. split; intros pk n'.
  - rewrite lookup_admin_mark_as_read.
    destruct (decide (pk ∈ selected)); [| by apply Hinv].
    destruct (tbl !! pk) as [n|]; [| done]. simpl. intros [= <-].
    apply read_at_iff_is_read_stamped.
  - rewrite lookup_admin_mark_as_unread.
    destruct (decide (pk ∈ selected)); [| by apply Hinv].
    destruct (tbl !! pk) as [n|]; [| done]. simpl. intros [= <-].
    unfold read_at_iff_is_read. simpl. split; [by intros [] | done].
Qed.

(** One read and one unread notification, both selected. *)
Lemma admin_actions_keep_consistent_witness :
  let tbl : Table Notification.t :=
    <[ 1%nat := Notification.mk 7 "Pills" "Take them" "medication"
                                true (Some 100) "" 10 ]>
      {[ 2%nat := Notification.mk 8 "Visit" "At noon" "task"
                                  false None "" 20 ]} in
  notifications_consistent
    (NotificationAdmin.mark_as_read 500 {[ 1%nat; 2%nat ]} tbl).2
  ∧ notifications_consistent
      (NotificationAdmin.mark_as_unread {[ 1%nat; 2%nat ]} tbl).2.
Proof.
  intros tbl. apply admin_actions_keep_consistent.
  apply map_Forall_insert_2.
  - split; [done | by eexists].
  - apply map_Forall_singleton. split; [by intros [] | done].
Defined.

(** X7. [mark_as_unread] undoes [mark_as_read]: over the same selection,
    the two actions in a row store what [mark_as_unread] alone stores, and
    when the selected rows were unread with [read_at] null the table is
    the one before the two actions. *)
Theorem admin_mark_as_unread_undoes_mark_as_read (now : Z)
    (selected : gset nat) (tbl : Table Notification.t) :
  let marked := (NotificationAdmin.mark_as_read now selected tbl).2 in
  (NotificationAdmin.mark_as_unread selected marked).2
  = (NotificationAdmin.mark_as_unread selected tbl).2
  ∧ ((∀ pk n, pk ∈ selected → tbl !! pk = Some n →
              Notification.is_read n = false
              ∧ Notification.read_at n = None) →
     (NotificationAdmin.mark_as_unread selected marked).2 = tbl).
Proof.
  intros marked. subst marked.
  assert (Hsame : (NotificationAdmin.mark_as_unread selected
                     (NotificationAdmin.mark_as_read now selected tbl).2).2
                  = (NotificationAdmin.mark_as_unread selected tbl).2).
  { apply map_eq. intros pk.
    rewrite !lookup_admin_mark_as_unread, lookup_admin_mark_as_read.
    destruct (decide (pk ∈ selected)); [| done].
    by destruct (tbl !! pk). }
  split; [exact Hsame |].
  intros Hunread. rewrite Hsame. apply map_eq. intros pk.
  rewrite lookup_admin_mark_as_unread.
  destruct (decide (pk ∈ selected)) as [Hin |]; [| done].
  destruct (tbl !! pk) as [n|] eqn:Hn; [| done]. simpl.
  destruct (Hunread pk n Hin Hn) as [Hread Hat].
  destruct n. simpl in *. by subst.
Qed.

(** An unread notification is marked read and unread again. *)
Lemma admin_mark_as_unread_undoes_mark_as_read_witness :
  let tbl : Table Notification.t :=
    {[ 2%nat := Notification.mk 8 "Visit" "At noon" "task" false None "" 20 ]} in
  (NotificationAdmin.mark_as_unread {[ 2%nat ]}
     (NotificationAdmin.mark_as_read 500 {[ 2%nat ]} tbl).2).2 = tbl.
Proof.
  intros tbl.
  apply (proj2 (admin_mark_as_unread_undoes_mark_as_read 500 {[ 2%nat ]} tbl)).
  intros pk n _ Hn. apply lookup_singleton_Some in Hn as [_ <-]. by split.
Defined.


(** ** Volunteer tasks: who may act, and what the lists show afterwards *)

Lemma lookup_tasks_of_caller (user : User.t) (tasks : Table VolunteerTask.t)
    (pk : nat) (task : VolunteerTask.t) :
  VolunteerTaskViewSet.get_queryset user tasks !! pk = Some task
  ↔ tasks !! pk = Some task ∧ sees_task user task.
Proof.
  unfold VolunteerTaskViewSet.get_queryset, sees_task.
  destruct (String.eqb (User.user_type user) "volunteer") eqn:Ev.
  - apply String.eqb_eq in Ev. rewrite lookup_filter_by, Nat.eqb_eq, Ev.
    split; [intros [? ?] | intros [? [Hv _]]]; repeat split; auto.
    discriminate.
  - apply String.eqb_neq in Ev.
    destruct (String.eqb (User.user_type user) "senior") eqn:Es.
    + apply String.eqb_eq in Es. rewrite lookup_filter_by, Nat.eqb_eq.
      split; [intros [? ?] | intros [? [_ Hs]]]; repeat split; auto.
      congruence.
    + apply String.eqb_neq in Es.
      split; [intros ? | by intros [? _]]. repeat split; auto; congruence.
Qed.


(** X8. A volunteer cannot act on a task that is assigned to another
    volunteer, nor a senior on a task that is done for another senior:
    [accept], [start] and [complete] answer 404 and write nothing. *)
Theorem foreign_task_is_not_found (now : Z) (notes : option (option string))
    (user : User.t) (pk : nat) (tasks : Table VolunteerTask.t)
    (profiles : Table VolunteerProfile.t) (task : VolunteerTask.t) :
  tasks !! pk = Some task →
  (User.user_type user = "volunteer"
   ∧ VolunteerTask.volunteer task ≠ User.id user)
  ∨ (User.user_type user = "senior"
     ∧ VolunteerTask.senior task ≠ User.id user) →
  VolunteerTaskViewSet.accept user pk tasks = (not_found_response, tasks)
  ∧ VolunteerTaskViewSet.start now user pk tasks = (not_found_response, tasks)
  ∧ VolunteerTaskViewSet.complete now notes user pk tasks profiles
    = (not_found_response, (tasks, profiles)).
Proof.
  intros Htask Hforeign.
  assert (Hhidden : VolunteerTaskViewSet.get_queryset user tasks !! pk = None).
  { apply eq_None_not_Some. intros [task' Hsee].
    apply lookup_tasks_of_caller in Hsee as [Htask' [Hv Hs]].
    assert (task' = task) as -> by congruence.
    destruct Hforeign as [[Hrole Hne] | [Hrole Hne]]; auto. }
  unfold VolunteerTaskViewSet.accept, VolunteerTaskViewSet.start,
    VolunteerTaskViewSet.complete, ORM.get_object.
  by rewrite Hhidden.
Qed.

(** Volunteer 5 tries a task of volunteer 6. *)
Lemma foreign_task_is_not_found_witness :
  let vera := User.mk 5 "vera" "" "" "Vera" "Lind" "volunteer" "" in
  let task := VolunteerTask.mk 7 6 1 "Shopping" "assigned" None None "" 0 in
  let tasks : Table VolunteerTask.t := {[ 1%nat := task ]} in
  VolunteerTaskViewSet.accept vera 1 tasks = (not_found_response, tasks)
  ∧ VolunteerTaskViewSet.start 10 vera 1 tasks = (not_found_response, tasks)
  ∧ VolunteerTaskViewSet.complete 10 None vera 1 tasks ∅
    = (not_found_response, (tasks, ∅)).
Proof.
  intros vera task tasks.
  apply (foreign_task_is_not_found 10 None vera 1 tasks ∅ task).
  - reflexivity.
  - left. split; [reflexivity | discriminate].
Defined.

Lemma sees_completed_task (now : Z) (completion_notes : string)
    (user : User.t) (task : VolunteerTask.t) :
  sees_task user task →
  sees_task user
    (VolunteerTaskViewSet.completed_task now completion_notes task).
Proof.
  unfold sees_task, VolunteerTaskViewSet.completed_task. simpl.
  by destruct (VolunteerTask.actual_start_time task).
Qed.


Lemma lookup_my_tasks (user : User.t) (tasks : Table VolunteerTask.t)
    (pk : nat) (task : VolunteerTask.t) :
  VolunteerTaskViewSet.my_tasks user tasks !! pk = Some task
  ↔ VolunteerTaskViewSet.get_queryset user tasks !! pk = Some task
    ∧ VolunteerTaskViewSet.status_in ["assigned"; "accepted"; "in_progress"]
        task = true.
Proof. unfold VolunteerTaskViewSet.my_tasks. apply lookup_filter_by. Qed.



(** ** The statistics of a volunteer *)

Lemma pending_tasks_save (user : User.t) (tasks : Table VolunteerTask.t)
    (pk : nat) (task task' : VolunteerTask.t) :
  tasks !! pk = Some task →
  VolunteerTask.volunteer task = User.id user →
  VolunteerTask.volunteer task' = User.id user →
  VolunteerTaskViewSet.status_in ["assigned"; "accepted"] task = true →
  ORM.count (DashboardStatsView.pending_tasks user tasks)
  = if VolunteerTaskViewSet.status_in ["assigned"; "accepted"] task'
    then ORM.count (DashboardStatsView.pending_tasks user
                      (ORM.save pk task' tasks))
    else S (ORM.count (DashboardStatsView.pending_tasks user
                         (ORM.save pk task' tasks))).
Proof.
  intros Htask Hv Hv' Hpending.
  unfold DashboardStatsView.pending_tasks, ORM.count, ORM.save.
  set (cond := λ k : VolunteerTask.t,
         Nat.eqb (VolunteerTask.volunteer k) (User.id user)
         && VolunteerTaskViewSet.status_in ["assigned"; "accepted"] k).
  assert (Hin : ORM.filter_by cond tasks !! pk = Some task).
  { apply lookup_filter_by. split; [done |]. unfold cond.
    by rewrite Hv, Nat.eqb_refl, Hpending. }
  destruct (VolunteerTaskViewSet.status_in ["assigned"; "accepted"] task')
    eqn:Hpending'.
  - rewrite filter_by_insert_true
      by (unfold cond; by rewrite Hv', Nat.eqb_refl, Hpending').
    by rewrite map_size_insert_Some.
  - rewrite filter_by_insert_false
      by (unfold cond; by rewrite Hv', Nat.eqb_refl, Hpending').
    rewrite map_size_delete_Some by done.
    pose proof (map_size_ne_0_lookup_2 _ pk (mk_is_Some _ _ Hin)) as Hsize.
    by destruct (size (ORM.filter_by cond tasks)).
Qed.

(** X10. For a volunteer with a profile and a task of theirs that is
    assigned or accepted: [accept] leaves the [pending_tasks] entry of
    their statistics as it is, and [start] lowers it by exactly one. *)
Theorem pending_tasks_after_accept_and_start (now : Z) (user : User.t)
    (pk vpk : nat) (tasks : Table VolunteerTask.t)
    (profiles : Table VolunteerProfile.t) (task : VolunteerTask.t)
    (profile : VolunteerProfile.t) :
  VolunteerTaskViewSet.get_queryset user tasks !! pk = Some task →
  VolunteerTask.volunteer task = User.id user →
  VolunteerTaskViewSet.status_in ["assigned"; "accepted"] task = true →
  ORM.get (λ p, Nat.eqb (VolunteerProfile.user p) (User.id user)) profiles
  = ORM.Found vpk profile →
  ∃ n : nat,
    stat "pending_tasks"
         (DashboardStatsView._get_volunteer_stats user profiles tasks)
    = Some (JInt (Z.of_nat (S n)))
    ∧ stat "pending_tasks"
           (DashboardStatsView._get_volunteer_stats user profiles
              (VolunteerTaskViewSet.accept user pk tasks).2)
      = Some (JInt (Z.of_nat (S n)))
    ∧ stat "pending_tasks"
           (DashboardStatsView._get_volunteer_stats user profiles
              (VolunteerTaskViewSet.start now user pk tasks).2)
      = Some (JInt (Z.of_nat n)).
Proof.
  intros Hsee Hv Hpending Hprofile.
  pose proof (proj1 (lookup_tasks_of_caller user tasks pk task) Hsee)
    as [Htask _].
  unfold VolunteerTaskViewSet.accept, VolunteerTaskViewSet.start,
    ORM.get_object, DashboardStatsView._get_volunteer_stats, stat.
  rewrite Hsee, Hprofile. simpl.
  pose proof (pending_tasks_save user tasks pk task
                (VolunteerTask.with_status "accepted" task)
                Htask Hv Hv Hpending) as Haccept.
  pose proof (pending_tasks_save user tasks pk task
                (VolunteerTask.with_actual_start_time (Some now)
                   (VolunteerTask.with_status "in_progress" task))
                Htask Hv Hv Hpending) as Hstart.
  simpl in Haccept, Hstart.
  eexists. rewrite Hstart. split; [reflexivity |].
  rewrite <- Haccept, Hstart. by split.
Qed.

(** Volunteer 5 with one assigned task. *)
Lemma pending_tasks_after_accept_and_start_witness :
  let vera := User.mk 5 "vera" "" "" "Vera" "Lind" "volunteer" "" in
  let task := VolunteerTask.mk 7 5 1 "Shopping" "assigned" None None "" 0 in
  let tasks : Table VolunteerTask.t := {[ 1%nat := task ]} in
  let profiles : Table VolunteerProfile.t :=
    {[ 1%nat := VolunteerProfile.mk 5 1 "V-5" 0 0 0 ]} in
  ∃ n : nat,
    stat "pending_tasks"
         (DashboardStatsView._get_volunteer_stats vera profiles tasks)
    = Some (JInt (Z.of_nat (S n)))
    ∧ stat "pending_tasks"
           (DashboardStatsView._get_volunteer_stats vera profiles
              (VolunteerTaskViewSet.accept vera 1 tasks).2)
      = Some (JInt (Z.of_nat (S n)))
    ∧ stat "pending_tasks"
           (DashboardStatsView._get_volunteer_stats vera profiles
              (VolunteerTaskViewSet.start 10 vera 1 tasks).2)
      = Some (JInt (Z.of_nat n)).
Proof.
  intros vera task tasks profiles.
  apply (pending_tasks_after_accept_and_start 10 vera 1 1 tasks profiles task
           (VolunteerProfile.mk 5 1 "V-5" 0 0 0)); reflexivity.
Defined.

(** X11. After a [complete] that answers 200, the statistics of the
    volunteer of the task (who has exactly one profile) report one more
    completed task and the same number of seniors helped as before. *)
Theorem stats_after_complete (now : Z) (notes : option (option string))
    (caller volunteer : User.t) (pk vpk : nat)
    (tasks : Table VolunteerTask.t) (profiles : Table VolunteerProfile.t)
    (task : VolunteerTask.t) (profile : VolunteerProfile.t) :
  VolunteerTaskViewSet.get_queryset caller tasks !! pk = Some task →
  VolunteerTask.volunteer task = User.id volunteer →
  ORM.get (λ p, Nat.eqb (VolunteerProfile.user p) (User.id volunteer)) profiles
  = ORM.Found vpk profile →
  let result :=
    VolunteerTaskViewSet.complete now notes caller pk tasks profiles in
  let stats :=
    DashboardStatsView._get_volunteer_stats volunteer result.2.2 result.2.1 in
  result.1 = message_response "Task completed successfully." →
  stat "tasks_completed" stats
  = Some (JInt (VolunteerProfile.tasks_completed profile + 1))
  ∧ stat "seniors_helped" stats
    = Some (JInt (VolunteerProfile.seniors_helped profile)).
Proof.
  intros Hsee Hv Hprofile result stats Hok. subst stats result.
  rewrite <- Hv in Hprofile.
  destruct (complete_succeeded now notes caller pk tasks profiles task
              Hsee Hok) as (completion_notes & _ & _ & Hprofiles).
  rewrite (Hprofiles vpk profile Hprofile).
  unfold DashboardStatsView._get_volunteer_stats, stat.
  rewrite <- Hv.
  rewrite (get_save_found _ profiles vpk profile _ Hprofile).
  - by split.
  - simpl. apply get_found_iff in Hprofile.
    assert (ORM.filter_by
              (λ p, Nat.eqb (VolunteerProfile.user p)
                            (VolunteerTask.volunteer task))
              profiles !! vpk = Some profile) as Hin
      by (rewrite Hprofile; apply lookup_singleton_eq).
    by apply lookup_filter_by in Hin as [_ Hin].
Qed.

(** Volunteer 5 completes a task; the statistics then show one completed
    task. *)
Lemma stats_after_complete_witness :
  let vera := User.mk 5 "vera" "" "" "Vera" "Lind" "volunteer" "" in
  let task := VolunteerTask.mk 7 5 1 "Shopping" "in_progress"
                               (Some 0) None "" 0 in
  let tasks : Table VolunteerTask.t := {[ 1%nat := task ]} in
  let profiles : Table VolunteerProfile.t :=
    {[ 1%nat := VolunteerProfile.mk 5 1 "V-5" 0 3 0 ]} in
  let result := VolunteerTaskViewSet.complete 10 None vera 1 tasks profiles in
  let stats :=
    DashboardStatsView._get_volunteer_stats vera result.2.2 result.2.1 in
  result.1 = message_response "Task completed successfully."
  ∧ stat "tasks_completed" stats = Some (JInt 1)
  ∧ stat "seniors_helped" stats = Some (JInt 3).
Proof.
  intros vera task tasks profiles result stats.
  assert (Hok : result.1 = message_response "Task completed successfully.")
    by (vm_compute; reflexivity).
  split; [exact Hok |].
  exact (stats_after_complete 10 None vera vera 1 1 tasks profiles task
           (VolunteerProfile.mk 5 1 "V-5" 0 3 0) eq_refl eq_refl eq_refl Hok).
Defined.

Lemma hours_below_one (elapsed : Z) :
  0 <= elapsed < 3600000000 →
  (0 <= total_seconds elapsed / inject_Z 3600)%Q
  ∧ (total_seconds elapsed / inject_Z 3600 < 1)%Q.
Proof.
  intros Helapsed. unfold total_seconds, Qdiv, Qmult, Qinv, inject_Z, Qle, Qlt.
  simpl. lia.
Qed.

(** X12. When a task is completed less than one hour after it was
    started and [complete] answers 200, the stored [total_hours] of its
    volunteer is unchanged, while [tasks_completed] grows by one: the
    integer column drops the fraction. The total is taken below 2^22
    hours, where the floating-point sum that the program computes has the
    integer part of the exact sum. *)
Theorem short_task_adds_no_hours (now started : Z)
    (notes : option (option string))
    (user : User.t) (pk vpk : nat) (tasks : Table VolunteerTask.t)
    (profiles : Table VolunteerProfile.t) (task : VolunteerTask.t)
    (volunteer : VolunteerProfile.t) :
  VolunteerTaskViewSet.get_queryset user tasks !! pk = Some task →
  VolunteerTask.actual_start_time task = Some started →
  0 <= now - started < 3600000000 →
  ORM.get (λ p, Nat.eqb (VolunteerProfile.user p)
                        (VolunteerTask.volunteer task)) profiles
  = ORM.Found vpk volunteer →
  0 <= VolunteerProfile.total_hours volunteer < 4194304 →
  (VolunteerTaskViewSet.complete now notes user pk tasks profiles).1
  = message_response "Task completed successfully." →
  ∃ volunteer',
    (VolunteerTaskViewSet.complete now notes user pk tasks profiles).2.2 !! vpk
    = Some volunteer'
    ∧ VolunteerProfile.total_hours volunteer'
      = VolunteerProfile.total_hours volunteer
    ∧ VolunteerProfile.tasks_completed volunteer'
      = VolunteerProfile.tasks_completed volunteer + 1.
Proof.
  intros Hsee Hstart Helapsed Hprofile Htotal Hok.
  destruct (complete_succeeded now notes user pk tasks profiles task
              Hsee Hok) as (completion_notes & _ & _ & Hprofiles).
  rewrite (Hprofiles vpk volunteer Hprofile).
  unfold ORM.save. rewrite lookup_insert_eq. eexists. split; [reflexivity |].
  split; [| reflexivity].
  destruct (completed_task_fields now started completion_notes task Hstart)
    as (_ & _ & _ & Hhours & _).
  unfold VolunteerTaskViewSet.updated_stats.
  cbn [VolunteerProfile.total_hours]. rewrite Hhours.
  destruct (hours_below_one (now - started) Helapsed) as [Hlow Hhigh].
  apply total_hours_ignores_fraction; [lia | done | done].
Qed.

(** A task of 45 minutes. *)
Lemma short_task_adds_no_hours_witness :
  let vera := User.mk 5 "vera" "" "" "Vera" "Lind" "volunteer" "" in
  let task := VolunteerTask.mk 7 5 1 "Shopping" "in_progress"
                               (Some 0) None "" 0 in
  let profile := VolunteerProfile.mk 5 1 "V-5" 4 0 0 in
  let result :=
    VolunteerTaskViewSet.complete 2700000000 None vera 1
      {[ 1%nat := task ]} {[ 1%nat := profile ]} in
  result.1 = message_response "Task completed successfully."
  ∧ ∃ volunteer',
      result.2.2 !! 1%nat = Some volunteer'
      ∧ VolunteerProfile.total_hours volunteer'
        = VolunteerProfile.total_hours profile
      ∧ VolunteerProfile.tasks_completed volunteer'
        = VolunteerProfile.tasks_completed profile + 1.
Proof.
  intros vera task profile result.
  assert (Hok : result.1 = message_response "Task completed successfully.")
    by (vm_compute; reflexivity).
  split; [exact Hok |].
  apply (short_task_adds_no_hours 2700000000 0 None vera 1 1
           {[ 1%nat := task ]} {[ 1%nat := profile ]} task profile);
    [reflexivity | reflexivity | simpl; lia | reflexivity | simpl; lia
    | exact Hok].
Defined.

(** ** Active alerts *)

(** X13. After a [resolve] that answers 200, the alert of the request
    is not among the active alerts; and whatever [resolve] answers, every
    other alert is active exactly when it was before. *)
Theorem active_after_resolve (now1 now2 : Z) (notes : option (option string))
    (user : User.t) (pk : nat) (alerts : Table EmergencyAlert.t) :
  let result :=
    EmergencyAlertViewSet.resolve now1 now2 notes user pk alerts in
  (result.1 = message_response "Alert resolved successfully." →
   EmergencyAlertViewSet.active result.2 !! pk = None)
  ∧ ∀ k, k ≠ pk →
         EmergencyAlertViewSet.active result.2 !! k
         = EmergencyAlertViewSet.active alerts !! k.
Proof.
  intros result. subst result.
  unfold EmergencyAlertViewSet.resolve, ORM.get_object,
    EmergencyAlertViewSet.active.
  destruct (alerts !! pk) as [alert|] eqn:Halert; [| by split].
  destruct (default (Some "") notes) as [resolution_notes|]; [| by split].
  simpl. split.
  - intros _. apply eq_None_not_Some. intros [a Ha].
    apply lookup_filter_by in Ha as [Ha Hactive].
    unfold ORM.save in Ha. rewrite lookup_insert_eq in Ha.
    by injection Ha as <-.
  - intros k Hne. apply option_eq. intros a.
    rewrite !lookup_filter_by. unfold ORM.save.
    by rewrite lookup_insert_ne.
Qed.

(** Two open alerts; the first one is resolved. *)
Lemma active_after_resolve_witness :
  let carol := User.mk 2 "carol" "" "" "Carol" "Diaz" "caretaker" "" in
  let second := EmergencyAlert.mk 8 5 "fall" false None None None "" in
  let alerts : Table EmergencyAlert.t :=
    <[ 1%nat := EmergencyAlert.mk 7 0 "sos" false None None None "" ]>
      {[ 2%nat := second ]} in
  let result := EmergencyAlertViewSet.resolve 100 101 None carol 1 alerts in
  result.1 = message_response "Alert resolved successfully."
  ∧ EmergencyAlertViewSet.active result.2 !! 1%nat = None
  ∧ EmergencyAlertViewSet.active result.2 !! 2%nat = Some second.
Proof.
  intros carol second alerts result.
  assert (Hok : result.1 = message_response "Alert resolved successfully.")
    by (vm_compute; reflexivity).
  destruct (active_after_resolve 100 101 None carol 1 alerts)
    as [Hgone Hothers].
  split; [exact Hok |]. split; [exact (Hgone Hok) |].
  transitivity (EmergencyAlertViewSet.active alerts !! 2%nat).
  - apply (Hothers 2%nat). discriminate.
  - reflexivity.
Defined.

(** ** Appointments of other users *)

(** X14. A senior cannot confirm or complete an appointment of another
    senior, nor a caretaker an appointment they are not attached to: both
    actions answer 404 and write nothing. *)
Theorem foreign_appointment_is_not_found (now : Z) (user : User.t) (pk : nat)
    (appointments : Table Appointment.t) (a : Appointment.t) :
  appointments !! pk = Some a →
  (User.user_type user = "senior" ∧ Appointment.senior a ≠ User.id user)
  ∨ (User.user_type user = "caretaker"
     ∧ Appointment.caretaker a ≠ Some (User.id user)) →
  AppointmentViewSet.confirm now user pk appointments
  = (not_found_response, appointments)
  ∧ AppointmentViewSet.complete now user pk appointments
    = (not_found_response, appointments).
Proof.
  intros Ha Hforeign.
  assert (Hhidden :
    AppointmentViewSet.get_queryset user appointments !! pk = None).
  { apply eq_None_not_Some. intros [a' Hsee].
    unfold AppointmentViewSet.get_queryset in Hsee.
    destruct Hforeign as [[Hrole Hne] | [Hrole Hne]];
      rewrite Hrole in Hsee; simpl in Hsee;
      apply lookup_filter_by in Hsee as [Ha' Hcond];
      assert (a' = a) as -> by congruence.
    - by apply Nat.eqb_eq in Hcond.
    - by apply bool_decide_eq_true in Hcond. }
  unfold AppointmentViewSet.confirm, AppointmentViewSet.complete,
    ORM.get_object.
  by rewrite Hhidden.
Qed.

(** Caretaker 2 tries an appointment that is attached to caretaker 3. *)
Lemma foreign_appointment_is_not_found_witness :
  let carol := User.mk 2 "carol" "" "" "Carol" "Diaz" "caretaker" "" in
  let appointments : Table Appointment.t :=
    {[ 1%nat := Appointment.mk 7 "Therapy" "scheduled" (Some 3%nat) "" 0 ]} in
  AppointmentViewSet.confirm 500 carol 1 appointments
  = (not_found_response, appointments)
  ∧ AppointmentViewSet.complete 500 carol 1 appointments
    = (not_found_response, appointments).
Proof.
  intros carol appointments.
  apply (foreign_appointment_is_not_found 500 carol 1 appointments
           (Appointment.mk 7 "Therapy" "scheduled" (Some 3%nat) "" 0)).
  - reflexivity.
  - right. split; [reflexivity | discriminate].
Defined.

(** ** Active medications *)

(** X15. [active] lists, for a senior, exactly their own medications that
    are active, and for every other role exactly the active medications of
    all seniors. *)
Theorem active_medications (user : User.t) (medications : Table Medication.t) :
  (User.user_type user = "senior" →
   selects (λ m, Medication.senior m = User.id user
                 ∧ Medication.is_active m = true)
           medications (MedicationViewSet.active user medications))
  ∧ (User.user_type user ≠ "senior" →
     selects (λ m, Medication.is_active m = true)
             medications (MedicationViewSet.active user medications)).
Proof.
  unfold MedicationViewSet.active, MedicationViewSet.get_queryset. split.
  - intros ->. simpl. intros pk m.
    rewrite !lookup_filter_by, Nat.eqb_eq.
    split; [by intros [[? ?] ?] | by intros (? & ? & ?)].
  - intros Hrole. apply String.eqb_neq in Hrole. rewrite Hrole.
    intros pk m. by rewrite lookup_filter_by.
Qed.

(** Senior 7 with an active and a stopped medication, and a medication of
    senior 8. *)
Lemma active_medications_witness :
  let sam := User.mk 7 "sam" "" "" "Sam" "Roe" "senior" "" in
  let medications : Table Medication.t :=
    <[ 1%nat := Medication.mk 7 "aspirin" "100 mg" "daily" true ]>
      (<[ 2%nat := Medication.mk 7 "statin" "20 mg" "daily" false ]>
         {[ 3%nat := Medication.mk 8 "insulin" "10 u" "daily" true ]}) in
  selects (λ m, Medication.senior m = User.id sam
                ∧ Medication.is_active m = true)
          medications (MedicationViewSet.active sam medications).
Proof.
  intros sam medications.
  apply (proj1 (active_medications sam medications)). reflexivity.
Defined.

(** ** The two readings of the clock in [resolve] *)

(** Both readings of the clock are 10 s. *)
Lemma resolve_response_time_exact_iff_witness :
  let resolver := User.mk 2 "carol" "" "" "Carol" "Diaz" "caretaker" "" in
  let alert := EmergencyAlert.mk 7 0 "sos" false None None None "" in
  let after := EmergencyAlert.mk 7 0 "sos" true (Some 10000000) (Some 2%nat)
                                 (Some 10000000) "" in
  EmergencyAlert.response_time after
  = (λ resolved_at, resolved_at - EmergencyAlert.alert_time after)
      <$> EmergencyAlert.resolved_at after
  ↔ 10000000 = 10000000.
Proof.
  intros resolver alert after.
  apply (resolve_response_time_exact_iff 10000000 10000000 None resolver 1
           {[ 1%nat := alert ]} alert after); reflexivity.
Defined.

(** ** Registration that succeeds, and logout *)

Lemma no_token_of_new_user (users : Table User.t) (tokens : Table Token.t) :
  tokens_refer_to_users users tokens →
  ORM.get (λ k, Nat.eqb (Token.user k) (fresh (dom users))) tokens
  = ORM.DoesNotExist.
Proof.
  intros Hfk. apply get_does_not_exist_iff, map_empty. intros k.
  apply eq_None_not_Some. intros [token Htoken].
  apply lookup_filter_by in Htoken as [Htoken Huser].
  apply Nat.eqb_eq in Huser.
  destruct (Hfk k token Htoken) as [user Hu].
  rewrite Huser, lookup_create_fresh in Hu. discriminate.
Qed.

Lemma exists_filter_by_false {Row : Type} (cond : Row → bool)
    (tbl : Table Row) :
  ORM.exists_ (ORM.filter_by cond tbl) = false →
  ∀ k row, tbl !! k = Some row → cond row = false.
Proof.
  intros Hnone k row Hrow. destruct (cond row) eqn:Hcond; [| done].
  assert (ORM.exists_ (ORM.filter_by cond tbl) = true) as Hsome.
  { apply exists_true. exists k, row. by apply lookup_filter_by. }
  congruence.
Qed.

(** What a registration that answers 201 has checked and written. *)
Lemma create_created
    (field_errors : RegisterSerializer.attrs → Table User.t → option JSON)
    (normalize_email normalize_username make_password : string → string)
    (generate_key : nat → string)
    (request_data : RegisterSerializer.attrs)
    (users : Table User.t) (tokens : Table Token.t) :
  tokens_refer_to_users users tokens →
  Response.status
    (RegisterView.create field_errors normalize_email normalize_username
                         make_password generate_key
                         request_data users tokens).1
  = HTTP_201_CREATED →
  let pk := fresh (dom users) in
  let user :=
    User.mk pk
      (normalize_username (strip (RegisterSerializer.username request_data)))
      (normalize_email (strip (RegisterSerializer.email request_data)))
      (make_password (strip (RegisterSerializer.password request_data)))
      (strip (RegisterSerializer.first_name request_data))
      (strip (RegisterSerializer.last_name request_data))
      (RegisterSerializer.user_type request_data)
      (strip (RegisterSerializer.phone_number request_data)) in
  strip (RegisterSerializer.password request_data)
  = strip (RegisterSerializer.password2 request_data)
  ∧ (∀ k u, users !! k = Some u → User.username u ≠ User.username user)
  ∧ (∀ k token, tokens !! k = Some token → Token.key token ≠ generate_key pk)
  ∧ RegisterView.create field_errors normalize_email normalize_username
                        make_password generate_key request_data users tokens
    = (Response.mk
         (JObj [("user", UserSerializer.to_representation user);
                ("token", JStr (generate_key pk))])
         HTTP_201_CREATED,
       (<[pk := user]> users,
        <[fresh (dom tokens) := Token.mk (generate_key pk) pk]> tokens)).
Proof.
  intros Hfk. unfold RegisterView.create, RegisterView.is_valid.
  destruct (field_errors _ users); [discriminate |].
  unfold RegisterSerializer.validate, RegisterSerializer.create.
  cbn [RegisterSerializer.to_internal_value RegisterSerializer.username
       RegisterSerializer.email RegisterSerializer.password
       RegisterSerializer.password2 RegisterSerializer.first_name
       RegisterSerializer.last_name RegisterSerializer.user_type
       RegisterSerializer.phone_number].
  destruct (String.eqb (strip (RegisterSerializer.password request_data)) _)
    eqn:Hsame; cbn [negb]; [| discriminate].
  cbn [User.username User.id].
  destruct (ORM.exists_ (ORM.filter_by _ users)) eqn:Hfree; [discriminate |].
  cbn [RegisterSerializer.to_internal_value RegisterSerializer.username
       RegisterSerializer.email RegisterSerializer.password
       RegisterSerializer.password2 RegisterSerializer.first_name
       RegisterSerializer.last_name RegisterSerializer.user_type
       RegisterSerializer.phone_number User.id] in *.
  rewrite (no_token_of_new_user users tokens Hfk).
  cbn [Token.key].
  destruct (ORM.exists_ (ORM.filter_by _ tokens)) eqn:Hkey; [discriminate |].
  intros _. cbv zeta. split; [by apply String.eqb_eq |]. split; [| split].
  - intros k u Hu Heq.
    pose proof (exists_filter_by_false _ users Hfree k u Hu) as Hne.
    apply String.eqb_neq in Hne. done.
  - intros k token Htoken Heq.
    pose proof (exists_filter_by_false _ tokens Hkey k token Htoken) as Hne.
    apply String.eqb_neq in Hne. done.
  - reflexivity.
Qed.

(** X16. A registration that answers 201 (every token belonging to a user
    of the table) has received passwords that agree once they are
    stripped. It answers with the serialized user and the key of a new
    token; it has added exactly one user row, under a new primary key,
    which holds the stripped fields of the request, the username and the
    e-mail address normalized, and the hash of the stripped password, and
    exactly one token row, for that user; the username was not in use, and
    the rows that existed stay as they are. *)
Theorem register_creates_user_and_token
    (field_errors : RegisterSerializer.attrs → Table User.t → option JSON)
    (normalize_email normalize_username make_password : string → string)
    (generate_key : nat → string)
    (request_data : RegisterSerializer.attrs)
    (users : Table User.t) (tokens : Table Token.t) :
  tokens_refer_to_users users tokens →
  Response.status
    (RegisterView.create field_errors normalize_email normalize_username
                         make_password generate_key
                         request_data users tokens).1
  = HTTP_201_CREATED →
  ∃ user tpk,
    RegisterView.create field_errors normalize_email normalize_username
                        make_password generate_key request_data users tokens
    = (Response.mk
         (JObj [("user", UserSerializer.to_representation user);
                ("token", JStr (generate_key (User.id user)))])
         HTTP_201_CREATED,
       (<[User.id user := user]> users,
        <[tpk := Token.mk (generate_key (User.id user)) (User.id user)]>
          tokens))
    ∧ users !! User.id user = None
    ∧ tokens !! tpk = None
    ∧ strip (RegisterSerializer.password request_data)
      = strip (RegisterSerializer.password2 request_data)
    ∧ User.username user
      = normalize_username (strip (RegisterSerializer.username request_data))
    ∧ User.email user
      = normalize_email (strip (RegisterSerializer.email request_data))
    ∧ User.password user
      = make_password (strip (RegisterSerializer.password request_data))
    ∧ User.first_name user
      = strip (RegisterSerializer.first_name request_data)
    ∧ User.last_name user = strip (RegisterSerializer.last_name request_data)
    ∧ User.user_type user = RegisterSerializer.user_type request_data
    ∧ User.phone_number user
      = strip (RegisterSerializer.phone_number request_data)
    ∧ ∀ k u, users !! k = Some u → User.username u ≠ User.username user.
Proof.
  intros Hfk Hcreated.
  destruct (create_created field_errors normalize_email normalize_username
              make_password generate_key request_data users tokens
              Hfk Hcreated) as (Hsame & Hfree & _ & Hcreate).
  eexists _, (fresh (dom tokens)). split; [exact Hcreate |].
  cbn [User.id User.username User.email User.password User.first_name
       User.last_name User.user_type User.phone_number].
  split; [apply lookup_create_fresh |].
  split; [apply lookup_create_fresh |].
  split; [exact Hsame |]. repeat (split; [reflexivity |]). exact Hfree.
Qed.

(** The first registration, into empty tables; the request has spaces
    around the username and after the password. *)
Lemma register_creates_user_and_token_witness :
  let request_data :=
    RegisterSerializer.mk " sam " "sam@example.org" "correct horse "
                          "correct horse" "Sam" "Roe" "senior" "" in
  let result :=
    RegisterView.create (λ _ _, None) (λ e, e) (λ u, u) (λ p, "#" ++ p)
                        (λ _, "k") request_data ∅ ∅ in
  Response.status result.1 = HTTP_201_CREATED
  ∧ ∃ user tpk,
      result
      = (Response.mk
           (JObj [("user", UserSerializer.to_representation user);
                  ("token", JStr "k")])
           HTTP_201_CREATED,
         (<[User.id user := user]> ∅,
          <[tpk := Token.mk "k" (User.id user)]> ∅))
      ∧ User.username user = "sam"
      ∧ User.email user = "sam@example.org"
      ∧ User.password user = "#correct horse"
      ∧ User.first_name user = "Sam"
      ∧ User.last_name user = "Roe"
      ∧ User.user_type user = "senior"
      ∧ User.phone_number user = "".
Proof.
  intros request_data result.
  assert (Hcreated : Response.status result.1 = HTTP_201_CREATED)
    by (vm_compute; reflexivity).
  split; [exact Hcreated |].
  destruct (register_creates_user_and_token (λ _ _, None) (λ e, e) (λ u, u)
              (λ p, "#" ++ p) (λ _, "k") request_data ∅ ∅)
    as (user & tpk & Hcreate & _ & _ & _ & Hname & Hmail & Hpw & Hfirst
        & Hlast & Htype & Hphone & _).
  - intros k token Htoken. by rewrite lookup_empty in Htoken.
  - exact Hcreated.
  - exists user, tpk. split; [exact Hcreate |].
    rewrite Hname, Hmail, Hpw, Hfirst, Hlast, Htype, Hphone.
    vm_compute. by repeat split.
Defined.

(** X17. When the caller has exactly one token, [post] of [LogoutView]
    answers 200 and deletes it: afterwards the caller has no token, and
    the tokens of the other users are the same as before. *)
Theorem logout_deletes_own_token (user : User.t) (tokens : Table Token.t)
    (pk : nat) (token : Token.t) :
  ORM.get (λ k, Nat.eqb (Token.user k) (User.id user)) tokens
  = ORM.Found pk token →
  let result := LogoutView.post user tokens in
  Response.status result.1 = HTTP_200_OK
  ∧ ORM.get (λ k, Nat.eqb (Token.user k) (User.id user)) result.2
    = ORM.DoesNotExist
  ∧ ∀ k other, tokens !! k = Some other →
               Token.user other ≠ User.id user →
               result.2 !! k = Some other.
Proof.
  intros Hget result. subst result. unfold LogoutView.post. rewrite Hget.
  simpl. split; [done |]. apply get_found_iff in Hget. split.
  - apply get_does_not_exist_iff. unfold ORM.delete, ORM.filter_by.
    rewrite map_filter_delete. fold (ORM.filter_by
      (λ k, Nat.eqb (Token.user k) (User.id user)) tokens).
    rewrite Hget. apply delete_singleton_eq.
  - intros k other Hk Hother. unfold ORM.delete.
    rewrite lookup_delete_ne; [done |]. intros ->.
    assert (ORM.filter_by (λ k, Nat.eqb (Token.user k) (User.id user)) tokens
            !! k = Some token) as Hin
      by (rewrite Hget; apply lookup_singleton_eq).
    apply lookup_filter_by in Hin as [Hin Huser].
    apply Nat.eqb_eq in Huser. congruence.
Qed.

(** Users 7 and 8 have a token each; user 7 logs out. *)
Lemma logout_deletes_own_token_witness :
  let sam := User.mk 7 "sam" "" "" "Sam" "Roe" "senior" "" in
  let tokens : Table Token.t :=
    <[ 1%nat := Token.mk "k7" 7 ]> {[ 2%nat := Token.mk "k8" 8 ]} in
  let result := LogoutView.post sam tokens in
  Response.status result.1 = HTTP_200_OK
  ∧ ORM.get (λ k, Nat.eqb (Token.user k) (User.id sam)) result.2
    = ORM.DoesNotExist
  ∧ ∀ k other, tokens !! k = Some other →
               Token.user other ≠ User.id sam →
               result.2 !! k = Some other.
Proof.
  intros sam tokens.
  apply (logout_deletes_own_token sam tokens 1 (Token.mk "k7" 7)).
  vm_compute. reflexivity.
Defined.

(** X18. A registration that answers 201, followed by the logout of the
    user it created, leaves the token table as it was before the
    registration (every token belonging to a user of the table). *)
Theorem register_then_logout
    (field_errors : RegisterSerializer.attrs → Table User.t → option JSON)
    (normalize_email normalize_username make_password : string → string)
    (generate_key : nat → string)
    (request_data : RegisterSerializer.attrs)
    (users : Table User.t) (tokens : Table Token.t) :
  tokens_refer_to_users users tokens →
  let registered :=
    RegisterView.create field_errors normalize_email normalize_username
                        make_password generate_key
                        request_data users tokens in
  Response.status registered.1 = HTTP_201_CREATED →
  ∃ user,
    registered.2.1 !! fresh (dom users) = Some user
    ∧ User.id user = fresh (dom users)
    ∧ LogoutView.post user registered.2.2
      = (Response.mk (JObj [("message", JStr "Successfully logged out.")])
                     HTTP_200_OK,
         tokens).
Proof.
  intros Hfk registered Hcreated. subst registered.
  destruct (create_created field_errors normalize_email normalize_username
              make_password generate_key request_data users tokens
              Hfk Hcreated) as (_ & _ & _ & ->).
  cbn [fst snd]. eexists. split; [apply lookup_insert_eq |].
  split; [reflexivity |].
  unfold LogoutView.post. cbn [User.id].
  assert (ORM.get (λ k, Nat.eqb (Token.user k) (fresh (dom users)))
            (<[fresh (dom tokens) :=
                 Token.mk (generate_key (fresh (dom users)))
                          (fresh (dom users))]> tokens)
          = ORM.Found (fresh (dom tokens))
              (Token.mk (generate_key (fresh (dom users)))
                        (fresh (dom users)))) as ->.
  { apply get_found_iff.
    rewrite filter_by_insert_true by apply Nat.eqb_refl.
    pose proof (no_token_of_new_user users tokens Hfk) as Hnone.
    apply get_does_not_exist_iff in Hnone. rewrite Hnone.
    apply insert_empty. }
  unfold ORM.delete. rewrite delete_insert_id; [done |].
  apply lookup_create_fresh.
Qed.

(** The first registration, into empty tables, and the logout. *)
Lemma register_then_logout_witness :
  let request_data :=
    RegisterSerializer.mk "sam" "sam@example.org" "correct horse"
                          "correct horse" "Sam" "Roe" "senior" "" in
  let registered :=
    RegisterView.create (λ _ _, None) (λ e, e) (λ u, u) (λ p, "#" ++ p)
                        (λ _, "k") request_data ∅ ∅ in
  Response.status registered.1 = HTTP_201_CREATED
  ∧ ∃ user,
      registered.2.1 !! fresh (dom (∅ : Table User.t)) = Some user
      ∧ User.id user = fresh (dom (∅ : Table User.t))
      ∧ LogoutView.post user registered.2.2
        = (Response.mk (JObj [("message", JStr "Successfully logged out.")])
                       HTTP_200_OK,
           ∅).
Proof.
  intros request_data registered.
  assert (Hcreated : Response.status registered.1 = HTTP_201_CREATED)
    by (vm_compute; reflexivity).
  split; [exact Hcreated |].
  apply (register_then_logout (λ _ _, None) (λ e, e) (λ u, u)
           (λ p, "#" ++ p) (λ _, "k") request_data ∅ ∅); [| exact Hcreated].
  intros k token Htoken. by rewrite lookup_empty in Htoken.
Defined.


(** ** The bulk actions of the admin site on alerts and tasks *)

(** X20. After the admin action [mark_resolved], no selected alert is
    among the active alerts; the alerts that were not selected are stored
    as they were; and no alert has its [response_time], [resolved_by] or
    [alert_time] changed (the action records neither who resolved the
    alert nor how long it took). *)
Theorem admin_mark_resolved (now : Z) (selected : gset nat)
    (alerts : Table EmergencyAlert.t) :
  let alerts' := (EmergencyAlertAdmin.mark_resolved now selected alerts).2 in
  (∀ pk, pk ∈ selected → EmergencyAlertViewSet.active alerts' !! pk = None)
  ∧ (∀ pk, pk ∉ selected → alerts' !! pk = alerts !! pk)
  ∧ ∀ pk a, alerts !! pk = Some a →
            ∃ a', alerts' !! pk = Some a'
                  ∧ EmergencyAlert.response_time a'
                    = EmergencyAlert.response_time a
                  ∧ EmergencyAlert.resolved_by a'
                    = EmergencyAlert.resolved_by a
                  ∧ EmergencyAlert.alert_time a'
                    = EmergencyAlert.alert_time a.
Proof.
  intros alerts'. subst alerts'. unfold EmergencyAlertAdmin.mark_resolved.
  simpl. split; [| split].
  - intros pk Hin. apply eq_None_not_Some. intros [a Ha].
    unfold EmergencyAlertViewSet.active in Ha.
    apply lookup_filter_by in Ha as [Ha Hactive].
    rewrite lookup_update_selected, decide_True in Ha by done.
    destruct (alerts !! pk); [| done]. by injection Ha as <-.
  - intros pk Hout. by rewrite lookup_update_selected, decide_False.
  - intros pk a Ha. rewrite lookup_update_selected, Ha.
    destruct (decide (pk ∈ selected)); eexists; by repeat split.
Qed.

(** Two open alerts; the first one is selected. *)
Lemma admin_mark_resolved_witness :
  let first := EmergencyAlert.mk 7 0 "sos" false None None None "" in
  let second := EmergencyAlert.mk 8 5 "fall" false None None None "" in
  let alerts : Table EmergencyAlert.t :=
    <[ 1%nat := first ]> {[ 2%nat := second ]} in
  let alerts' :=
    (EmergencyAlertAdmin.mark_resolved 100 {[ 1%nat ]} alerts).2 in
  EmergencyAlertViewSet.active alerts' !! 1%nat = None
  ∧ alerts' !! 2%nat = Some second
  ∧ ∃ a', alerts' !! 1%nat = Some a'
          ∧ EmergencyAlert.response_time a' = None
          ∧ EmergencyAlert.resolved_by a' = None
          ∧ EmergencyAlert.alert_time a' = 0.
Proof.
  intros first second alerts alerts'.
  destruct (admin_mark_resolved 100 {[ 1%nat ]} alerts)
    as (Hselected & Hothers & Hkept).
  split; [apply Hselected; set_solver |].
  split; [rewrite Hothers by set_solver; reflexivity |].
  apply (Hkept 1%nat first). reflexivity.
Defined.

Lemma my_tasks_hides_status (status : string) (user : User.t)
    (tasks : Table VolunteerTask.t) (pk : nat) :
  existsb (String.eqb status) ["assigned"; "accepted"; "in_progress"] = false →
  (∀ task, tasks !! pk = Some task → VolunteerTask.status task = status) →
  VolunteerTaskViewSet.my_tasks user tasks !! pk = None.
Proof.
  intros Hstatus Hall. apply eq_None_not_Some. intros [task Hin].
  apply lookup_my_tasks in Hin as [Hsee Hshown].
  apply lookup_tasks_of_caller in Hsee as [Htask _].
  unfold VolunteerTaskViewSet.status_in in Hshown.
  rewrite (Hall task Htask) in Hshown. congruence.
Qed.

(** X21. After the admin actions [mark_completed] and [mark_cancelled], no
    selected task is in the [my_tasks] list of any user, and every task
    has the [hours_logged] and the volunteer it had (the bulk completion
    logs no hours). *)
Theorem admin_task_actions (now : Z) (selected : gset nat)
    (tasks : Table VolunteerTask.t) :
  let completed := (VolunteerTaskAdmin.mark_completed now selected tasks).2 in
  let cancelled := (VolunteerTaskAdmin.mark_cancelled selected tasks).2 in
  (∀ user pk, pk ∈ selected →
     VolunteerTaskViewSet.my_tasks user completed !! pk = None
     ∧ VolunteerTaskViewSet.my_tasks user cancelled !! pk = None)
  ∧ ∀ pk task, tasks !! pk = Some task →
      ∃ task1 task2,
        completed !! pk = Some task1 ∧ cancelled !! pk = Some task2
        ∧ VolunteerTask.hours_logged task1 = VolunteerTask.hours_logged task
        ∧ VolunteerTask.hours_logged task2 = VolunteerTask.hours_logged task
        ∧ VolunteerTask.volunteer task1 = VolunteerTask.volunteer task
        ∧ VolunteerTask.volunteer task2 = VolunteerTask.volunteer task.
Proof.
  intros completed cancelled. subst completed cancelled.
  unfold VolunteerTaskAdmin.mark_completed, VolunteerTaskAdmin.mark_cancelled.
  simpl. split.
  - intros user pk Hin. split.
    + apply (my_tasks_hides_status "completed"); [reflexivity |].
      intros task. rewrite lookup_update_selected, decide_True by done.
      destruct (tasks !! pk); [| done]. by intros [= <-].
    + apply (my_tasks_hides_status "cancelled"); [reflexivity |].
      intros task. rewrite lookup_update_selected, decide_True by done.
      destruct (tasks !! pk); [| done]. by intros [= <-].
  - intros pk task Htask. rewrite !lookup_update_selected, Htask.
    destruct (decide (pk ∈ selected)); eexists _, _; by repeat split.
Qed.

(** A started task of volunteer 5 is completed through the admin site. *)
Lemma admin_task_actions_witness :
  let vera := User.mk 5 "vera" "" "" "Vera" "Lind" "volunteer" "" in
  let task := VolunteerTask.mk 7 5 1 "Shopping" "in_progress"
                               (Some 0) None "" 0 in
  let tasks : Table VolunteerTask.t := {[ 1%nat := task ]} in
  let completed :=
    (VolunteerTaskAdmin.mark_completed 5400000000 {[ 1%nat ]} tasks).2 in
  VolunteerTaskViewSet.my_tasks vera tasks !! 1%nat = Some task
  ∧ VolunteerTaskViewSet.my_tasks vera completed !! 1%nat = None
  ∧ ∃ task1, completed !! 1%nat = Some task1
             ∧ VolunteerTask.hours_logged task1 = 0%Q.
Proof.
  intros vera task tasks completed.
  destruct (admin_task_actions 5400000000 {[ 1%nat ]} tasks)
    as [Hhidden Hkept].
  split; [reflexivity |].
  split; [apply (Hhidden vera 1%nat); set_solver |].
  destruct (Hkept 1%nat task eq_refl) as (task1 & _ & H1 & _ & Hh & _).
  exists task1. by split.
Defined.
